(** * arquivo.py: the SARIMA forecasting script, as a shallow embedding

    The script is one linear pipeline: load a sheet, find the date column,
    parse it (strict, then lenient), sort and drop rows without [QNT], fit a
    seasonal model, derive how many months to forecast, round the forecasts
    and write them into fixed cells of the workbook, saving once.

    Module-level Python code becomes a computation in a small monad
    [Script] that threads the console/workbook trace and the on-disk
    workbook, and that ends in a value, in [SystemExit] (from [sys.exit()])
    or in an exception.  The libraries the script calls (pandas, statsmodels,
    openpyxl, [str.lower]) are the fields of a record [World]: every theorem
    is stated for an arbitrary world. *)

From Stdlib Require Import ZArith QArith Qround Qabs Lqa String Ascii.
From stdpp Require Import base option strings list gmap sorting.

Local Open Scope string_scope.
Local Open Scope Z_scope.
Local Open Scope list_scope.

(** ** Values *)

(** A pandas [Timestamp], at the resolution the script looks at: the
    calendar date.  Time of day plays no part in the script. *)
Record Timestamp := mkTs { year : Z; month : Z; day : Z }.

(** A [datetime64] entry: [None] is [NaT]. *)
Abbreviation datetime := (option Timestamp).
Abbreviation NaT := (@None Timestamp).

(** What a spreadsheet cell can hold, once read. *)
Inductive cell :=
  | Null                      (* empty cell: NaN / None *)
  | Text (s : string)
  | Int (z : Z)
  | Real (q : Q)
  | Stamp (t : Timestamp).

Definition isna (c : cell) : bool :=
  match c with Null => true | _ => false end.

(** A DataFrame: column labels in their declared order and the rows, each a
    list of cells aligned with the labels (a cell that is not there reads as
    [Null]). *)
Record DataFrame := mkDf { columns : list string; rows : list (list cell) }.

Definition get_cell (r : list cell) (i : nat) : cell := default Null (r !! i).

(** A sheet maps (row, column) to a value; a workbook maps titles to sheets. *)
Abbreviation sheet := (gmap (Z * Z) cell).
Abbreviation workbook := (gmap string (gmap (Z * Z) cell)).

(** ** Python outcomes *)

Inductive exn :=
  | NameError (name : string)
  | KeyError (key : string)
  | IndexError
  | LibraryError (what : string).

(** One forecast entry of [previsoes_finais]. *)
Record previsao := mkPrev { p_data : Timestamp; p_previsao : Z }.

(** The number handed to [get_forecast(steps=...)]: [12 - NaT.month] is NaN. *)
Inductive steps := Steps (k : Z) | StepsNaN.

(** Every [print] of the script, with the values it interpolates. *)
Inductive message :=
  | ErroLerAba (aba : string) (e : exn)
  | VerifiqueArquivoAba
  | ColunasDetectadas (aba : string) (cols : list string)
  | ErroSemColunaData (aba : string)
  | ColunasEncontradas (cols : list string)
  | RenomeieColuna
  | ErroConverter (col : string)
  | VerifiqueFormato
  | AvisoParserFlexivel (col : string)
  | TreinandoModelo
  | PodeLevarSegundos
  | ModeloTreinado
  | ErroTreinar (e : exn)
  | VerifiqueDadosSuficientes
  | DadosCompletos (ano : Z)
  | CalculandoPrevisoes (n : steps) (ano : Z)
  | PrevisaoPara (d : Timestamp) (v : Z)
  | EscrevendoPrevisoes (aba : string)
  | ErroDivergencia (k l : nat)
  | AjusteLinhasAlvo
  | AvisoAbaCriada (aba : string)
  | ValorSalvo (v : Z) (d : Timestamp) (linha : Z)
  | Sucesso (k : nat) (arquivo : string)
  | ErroEscrever (e : exn)
  | NaoForamSalvas.

(** What the script does to the outside, in order.  A library call is
    recorded when it is attempted, whether or not it then raises. *)
Inductive event :=
  | Print (m : message)
  | ReadExcel (aba : string)
  | FitModel
  | GetForecast (n : steps)
  | LoadWorkbook
  | CreateSheet (title : string)
  | SetCell (aba : string) (row col : Z) (v : Z)
  | Save.

Record State := mkState { trace : list event; disk : workbook }.

Inductive Outcome (A : Type) :=
  | Done (a : A)
  | SysExit (status : Z)      (* sys.exit(): SystemExit, not an Exception *)
  | Raised (e : exn).
Arguments Done {A} a.
Arguments SysExit {A} status.
Arguments Raised {A} e.

Definition Script (A : Type) : Type := State → Outcome A * State.

Module Py.

Definition ret {A} (a : A) : Script A := λ st, (Done a, st).

Definition bind {A B} (c : Script A) (k : A → Script B) : Script B :=
  λ st, match c st with
        | (Done a, st') => k a st'
        | (SysExit n, st') => (SysExit n, st')
        | (Raised e, st') => (Raised e, st')
        end.

Definition emit (e : event) : Script unit :=
  λ st, (Done tt, mkState (trace st ++ [e]) (disk st)).

Definition print (m : message) : Script unit := emit (Print m).

(** [sys.exit()] with no argument: exit status 0. *)
Definition sys_exit {A} : Script A := λ st, (SysExit 0, st).

Definition raise {A} (e : exn) : Script A := λ st, (Raised e, st).

Definition lift {A} (r : exn + A) : Script A :=
  match r with inl e => raise e | inr a => ret a end.

(** [try: body  except Exception as e: handler e].  [SystemExit] is not an
    [Exception] and passes through; what [body] did before raising stays
    done. *)
Definition try_except {A} (body : Script A) (handler : exn → Script A)
  : Script A :=
  λ st, match body st with
        | (Raised e, st') => handler e st'
        | r => r
        end.

Definition get_disk : Script workbook := λ st, (Done (disk st), st).

Definition set_disk (wb : workbook) : Script unit :=
  λ st, (Done tt, mkState (trace st) wb).

End Py.

Declare Scope script_scope.
Delimit Scope script_scope with script.
Notation "x <- c ;; k" := (Py.bind c (λ x, k))
  (at level 100, c at next level, right associativity) : script_scope.
Notation "c ;;; k" := (Py.bind c (λ _, k))
  (at level 100, right associativity) : script_scope.
Local Open Scope script_scope.

(** ** Strings *)

(** [needle in hay].  Python compares code points and these strings are
    UTF-8 bytes; for well-formed text the two notions of substring agree. *)
Fixpoint contains (needle hay : string) : bool :=
  String.prefix needle hay ||
  match hay with
  | EmptyString => false
  | String _ rest => contains needle rest
  end.

(** [not s] for a [str]. *)
Definition falsy (s : string) : bool :=
  match s with EmptyString => true | _ => false end.

(** ** The libraries *)

(** The fitted model: [results.get_forecast(steps=n).predicted_mean], a
    date-indexed series of numbers, or an exception.  A predicted mean is
    taken to be a finite float, that is, a rational; [round] is exact on
    those. *)
Record Results := mkResults {
  get_forecast : steps → exn + list (Timestamp * Q)
}.

Record World := mkWorld {
  (** [str.lower] and [str.strip] *)
  str_lower : string → string;
  str_strip : string → string;
  (** [pd.read_excel(nome_arquivo, sheet_name=...)], labels already [str] *)
  read_excel : workbook → string → exn + DataFrame;
  (** one value under [format='%m/%Y', errors='raise']: a date, [NaT] for a
      null input, or the exception *)
  strptime_mY : cell → exn + datetime;
  (** [dayfirst=True, errors='coerce']: the format may be inferred from the
      whole column; a value that does not parse is [NaT] *)
  parse_dayfirst : list cell → cell → datetime;
  (** [SARIMAX(y, ...).fit(disp=False)] *)
  sarimax_fit : list (datetime * cell) → exn + Results;
  (** [openpyxl.load_workbook] failing on the file *)
  load_error : workbook → option exn;
  (** assigning [.value] of the cell at (row, column) failing, as it does
      for a merged, read-only cell *)
  cell_error : Z → Z → option exn;
  (** [workbook.save] failing, with what is then left on disk *)
  save_error : workbook → option (exn * workbook)
}.

(** ** Configuration (section 1 of the script, and section 6) *)

(** The path is only ever handed to the libraries and printed.  Line 12
    spells it in a plain string literal whose backslashes Python 3 reads as
    escapes and rejects; the script is modelled as it runs once the literal
    is made a raw string, the path being these characters. *)
Definition nome_arquivo : string :=
  "C:\Users\Livia Bontempo\OneDrive\amaral\Dados teste.xlsx".
Definition aba_dados_limpos : string := "dados_para_analise".
Definition aba_original : string := "Plan1".
Definition ano_para_prever : Z := 2025.
Definition mes_final_desejado : Z := 12.
Definition aba_alvo : string := "graficos".
Definition coluna_alvo : Z := 6.
Definition linhas_alvo : list Z := [11; 12; 13; 14].

(** ** Ordering of dates *)

Definition ts_le (a b : Timestamp) : Prop :=
  year a < year b ∨
  (year a = year b ∧
   (month a < month b ∨ (month a = month b ∧ day a ≤ day b))).

#[global] Instance ts_le_dec a b : Decision (ts_le a b).
Proof. unfold ts_le. apply _. Defined.

(** The order [sort_values] sorts by: dates ascending, [NaT] last
    ([na_position='last'], the default). *)
Definition date_le (a b : datetime) : Prop :=
  match a, b with
  | _, None => True
  | None, Some _ => False
  | Some x, Some y => ts_le x y
  end.

#[global] Instance date_le_dec a b : Decision (date_le a b).
Proof. destruct a, b; simpl; apply _. Defined.

(** [Series.max()] of a datetime index: [NaT] entries are skipped; [NaT] if
    nothing is left. *)
Definition ts_max (a b : Timestamp) : Timestamp :=
  if decide (ts_le a b) then b else a.

Fixpoint index_max (l : list datetime) : datetime :=
  match l with
  | [] => None
  | None :: rest => index_max rest
  | Some t :: rest =>
      match index_max rest with
      | None => Some t
      | Some u => Some (ts_max t u)
      end
  end.

(** ** Rounding *)

(** Python's [round(x)] on a finite float: nearest integer, ties to even. *)
Definition py_round (x : Q) : Z :=
  let f := Qfloor x in
  match Qcompare (x - inject_Z f) (1 # 2) with
  | Lt => f
  | Gt => f + 1
  | Eq => if Z.even f then f else f + 1
  end.

(** ** Frames *)

(** Position of a label among the columns (the first, should a label be
    repeated). *)
Fixpoint index_of (c : string) (cols : list string) : option nat :=
  match cols with
  | [] => None
  | x :: rest => if decide (x = c) then Some 0%nat else S <$> index_of c rest
  end.

(** [df[c]] as [pd.to_datetime] receives it: the values of the column.
    An unknown label raises [KeyError].  When several columns bear the
    label (two headers that line 32 strips to the same text), [df[c]] is a
    frame of those columns and [pd.to_datetime] refuses it, under
    [errors='raise'] and under [errors='coerce'] alike. *)
Definition coluna (df : DataFrame) (c : string) : exn + list cell :=
  match index_of c (columns df) with
  | None => inl (KeyError c)
  | Some i =>
      match index_of c (drop (S i) (columns df)) with
      | Some _ =>
          inl (LibraryError "ValueError: cannot assemble with duplicate keys")
      | None => inr ((λ r, get_cell r i) <$> rows df)
      end
  end.

Definition isnat (d : datetime) : bool :=
  match d with None => true | Some _ => false end.

(** Rows carrying their parsed ['Data'] entry, ordered by it. *)
Definition por_data (a b : datetime * list cell) : Prop := date_le a.1 b.1.

#[global] Instance por_data_dec a b : Decision (por_data a b).
Proof. unfold por_data. apply _. Defined.

(** [df.sort_values(by='Data')].  pandas does not promise an order among
    equal dates; the results on the series use only that the output is a
    sorted rearrangement of the input.  Where a result supposes that the
    model fits the series, it is the series in the order computed here,
    which is pandas' order when no two rows bear the same date. *)
Definition sort_values (l : list (datetime * list cell))
  : list (datetime * list cell) :=
  merge_sort por_data l.

(** The row carries a quantity: its cell in column [i] is not null. *)
Definition tem_qnt (i : nat) (r : datetime * list cell) : Prop :=
  isna (get_cell r.2 i) = false.

#[global] Instance tem_qnt_dec i r : Decision (tem_qnt i r).
Proof. unfold tem_qnt. apply _. Defined.

(** [df.dropna(subset=['QNT'])], with [i] the position of the QNT column. *)
Definition dropna (i : nat) (l : list (datetime * list cell))
  : list (datetime * list cell) :=
  filter (tem_qnt i) l.

(** [df.set_index('Data')['QNT']]: the series [y], index and value. *)
Definition serie_qnt (i : nat) (l : list (datetime * list cell))
  : list (datetime * cell) :=
  (λ r, (r.1, get_cell r.2 i)) <$> l.

(** Lines 66-76 on the rows, once the QNT column is found. *)
Definition serie_limpa (i : nat) (l : list (datetime * list cell))
  : list (datetime * cell) :=
  serie_qnt i (dropna i (sort_values l)).

(** ** Forecast count (lines 110-117) *)

Definition num_previsoes (ultima_data : datetime) : steps :=
  match ultima_data with
  | Some t => Steps (mes_final_desejado - month t)
  | None => StepsNaN
  end.

(** [num_previsoes <= 0]; any comparison with NaN is false. *)
Definition nao_positivo (n : steps) : bool :=
  match n with
  | Steps k => bool_decide (k ≤ 0)
  | StepsNaN => false
  end.

(** ** Cells of the workbook *)

(** The workbook after [sheet.cell(row=linha, column=6).value = v]. *)
Definition grava (wb : workbook) (linha v : Z) : workbook :=
  <[aba_alvo := <[(linha, coluna_alvo) := Int v]> (default ∅ (wb !! aba_alvo))]>
    wb.

Section Pipeline.

Variable w : World.

(** *** Section 2: load (lines 24-33) *)

Definition carregar : Script DataFrame :=
  arquivo <- Py.get_disk ;;
  df <- Py.try_except
          (Py.emit (ReadExcel aba_dados_limpos) ;;;
           Py.lift (read_excel w arquivo aba_dados_limpos))
          (λ e, Py.print (ErroLerAba aba_dados_limpos e) ;;;
                Py.print VerifiqueArquivoAba ;;;
                Py.sys_exit) ;;
  let df := mkDf (str_strip w <$> columns df) (rows df) in
  Py.print (ColunasDetectadas aba_dados_limpos (columns df)) ;;;
  Py.ret df.

(** *** Date column (lines 36-49) *)

Definition heuristica (c : string) : bool :=
  let cl := str_lower w c in
  contains "data" cl || contains "mes" cl || contains "mês" cl
  || contains "month" cl || contains "date" cl.

(** The [for] loop with its [break]; [None] when the loop runs to its end,
    which leaves the name [date_col] unbound. *)
Fixpoint varrer (cols : list string) : option string :=
  match cols with
  | [] => None
  | c :: rest => if heuristica c then Some c else varrer rest
  end.

(** The binding of [date_col] after line 43, if any. *)
Definition detectar (cols : list string) : option string :=
  if bool_decide ("Data" ∈ cols) then Some "Data" else varrer cols.

(** Lines 36-49.  [if not date_col] reads the name: unbound, it raises
    [NameError]. *)
Definition resolver (cols : list string) : Script string :=
  match detectar cols with
  | None => Py.raise (NameError "date_col")
  | Some date_col =>
      if falsy date_col then
        Py.print (ErroSemColunaData aba_dados_limpos) ;;;
        Py.print (ColunasEncontradas cols) ;;;
        Py.print RenomeieColuna ;;;
        Py.sys_exit
      else Py.ret date_col
  end.

(** *** Dates (lines 52-63) *)

(** [pd.to_datetime(col, format='%m/%Y', errors='raise')]: the first value
    that does not parse raises. *)
Fixpoint to_datetime_strict (col : list cell) : exn + list datetime :=
  match col with
  | [] => inr []
  | x :: rest =>
      match strptime_mY w x with
      | inl e => inl e
      | inr d =>
          match to_datetime_strict rest with
          | inl e => inl e
          | inr ds => inr (d :: ds)
          end
      end
  end.

(** [pd.to_datetime(col, dayfirst=True, errors='coerce')]. *)
Definition to_datetime_coerce (col : list cell) : list datetime :=
  parse_dayfirst w col <$> col.

(** The new ['Data'] column. *)
Definition normalizar (df : DataFrame) (date_col : string)
  : Script (list datetime) :=
  Py.try_except
    (col <- Py.lift (coluna df date_col) ;;
     Py.lift (to_datetime_strict col))
    (λ _,
       col <- Py.lift (coluna df date_col) ;;
       let datas := to_datetime_coerce col in
       if forallb isnat datas then
         Py.print (ErroConverter date_col) ;;;
         Py.print VerifiqueFormato ;;;
         Py.sys_exit
       else
         Py.print (AvisoParserFlexivel date_col) ;;;
         Py.ret datas).

(** *** Sort and drop (lines 66-76) *)

(** [df['QNT']] is read as the one column so labelled; a sheet on which
    several columns bear that label gives a frame there, and is not among
    the inputs of the results on the series. *)
Definition limpar (df : DataFrame) (datas : list datetime)
  : Script (list (datetime * cell)) :=
  match index_of "QNT" (columns df) with
  | None => Py.raise (KeyError "QNT")
  | Some i => Py.ret (serie_limpa i (zip datas (rows df)))
  end.

(** *** Fit (lines 80-104) *)

Definition treinar (y : list (datetime * cell)) : Script Results :=
  Py.print TreinandoModelo ;;;
  Py.print PodeLevarSegundos ;;;
  Py.try_except
    (Py.emit FitModel ;;;
     results <- Py.lift (sarimax_fit w y) ;;
     Py.print ModeloTreinado ;;;
     Py.ret results)
    (λ e, Py.print (ErroTreinar e) ;;;
          Py.print VerifiqueDadosSuficientes ;;;
          Py.sys_exit).

(** *** Forecast (lines 110-126) *)

Definition prever (results : Results) (y : list (datetime * cell))
  : Script (list (Timestamp * Q)) :=
  let ultima_data := index_max (fst <$> y) in
  let n := num_previsoes ultima_data in
  if nao_positivo n then
    Py.print (DadosCompletos ano_para_prever) ;;;
    Py.sys_exit
  else
    Py.print (CalculandoPrevisoes n ano_para_prever) ;;;
    Py.emit (GetForecast n) ;;;
    Py.lift (get_forecast results n).

(** *** Rounding loop (lines 129-141) *)

(** The forecasts are taken as the model returns them for a date-indexed
    series: a date and a finite mean each.  On a mean that is NaN or
    infinite [round] raises, and on a label that is not a date [strftime]
    does; those replies of the library are not among the inputs here. *)

Fixpoint processar (previsoes_series : list (Timestamp * Q))
  : Script (list previsao) :=
  match previsoes_series with
  | [] => Py.ret []
  | (proxima_data, previsao_qnt) :: rest =>
      let arredondada := py_round previsao_qnt in
      Py.print (PrevisaoPara proxima_data arredondada) ;;;
      previsoes_finais <- processar rest ;;
      Py.ret (mkPrev proxima_data arredondada :: previsoes_finais)
  end.

(** *** Writing (lines 146-197) *)

(** [sheet.cell(row=linha, column=coluna_alvo).value = v] on the sheet
    [aba_alvo] of the in-memory workbook. *)
Definition atribuir (wb : workbook) (linha : Z) (v : Z) : Script workbook :=
  Py.emit (SetCell aba_alvo linha coluna_alvo v) ;;;
  match cell_error w linha coluna_alvo with
  | Some e => Py.raise e
  | None => Py.ret (grava wb linha v)
  end.

(** The [for i, previsao in enumerate(previsoes_finais)] loop, from
    position [i]. *)
Fixpoint escrever (i : nat) (ps : list previsao) (wb : workbook)
  : Script workbook :=
  match ps with
  | [] => Py.ret wb
  | p :: rest =>
      linha_atual <- match linhas_alvo !! i with
                     | Some l => Py.ret l
                     | None => Py.raise IndexError
                     end ;;
      wb' <- atribuir wb linha_atual (p_previsao p) ;;
      Py.print (ValorSalvo (p_previsao p) (p_data p) linha_atual) ;;;
      escrever (S i) rest wb'
  end.

(** [workbook.save(nome_arquivo)]. *)
Definition salvar (wb : workbook) : Script unit :=
  Py.emit Save ;;;
  match save_error w wb with
  | Some (e, resto) => Py.set_disk resto ;;; Py.raise e
  | None => Py.set_disk wb
  end.

Definition abrir : Script workbook :=
  arquivo <- Py.get_disk ;;
  Py.emit LoadWorkbook ;;;
  match load_error w arquivo with
  | Some e => Py.raise e
  | None => Py.ret arquivo
  end.

Definition selecionar_aba (wb : workbook) : Script workbook :=
  match wb !! aba_alvo with
  | Some _ => Py.ret wb
  | None =>
      Py.print (AvisoAbaCriada aba_alvo) ;;;
      Py.emit (CreateSheet aba_alvo) ;;;
      Py.ret (<[aba_alvo := ∅]> wb)
  end.

Definition gravar (previsoes_finais : list previsao) : Script unit :=
  Py.print (EscrevendoPrevisoes aba_alvo) ;;;
  if negb (length previsoes_finais =? length linhas_alvo)%nat then
    Py.print (ErroDivergencia (length previsoes_finais)
                              (length linhas_alvo)) ;;;
    Py.print AjusteLinhasAlvo ;;;
    Py.sys_exit
  else
    Py.try_except
      (wb <- abrir ;;
       wb <- selecionar_aba wb ;;
       wb <- escrever 0 previsoes_finais wb ;;
       salvar wb ;;;
       Py.print (Sucesso (length previsoes_finais) nome_arquivo))
      (λ e, Py.print (ErroEscrever e) ;;;
            Py.print NaoForamSalvas).

(** *** The script *)

Definition main : Script unit :=
  df <- carregar ;;
  date_col <- resolver (columns df) ;;
  datas <- normalizar df date_col ;;
  y <- limpar df datas ;;
  results <- treinar y ;;
  previsoes_series <- prever results y ;;
  previsoes_finais <- processar previsoes_series ;;
  gravar previsoes_finais.

(** What runs before the write section: lines 24-141, up to the end of the
    rounding loop. *)
Definition preparar : Script (list previsao) :=
  df <- carregar ;;
  date_col <- resolver (columns df) ;;
  datas <- normalizar df date_col ;;
  y <- limpar df datas ;;
  results <- treinar y ;;
  previsoes_series <- prever results y ;;
  processar previsoes_series.

End Pipeline.

(** ** A concrete world, to run the script on *)

Module Exemplo.

Definition lower_ascii (a : ascii) : ascii :=
  let n := nat_of_ascii a in
  if (65 <=? n)%nat && (n <=? 90)%nat then ascii_of_nat (n + 32) else a.

(** [str.lower] restricted to ASCII letters. *)
Fixpoint lower (s : string) : string :=
  match s with
  | EmptyString => EmptyString
  | String a rest => String (lower_ascii a) (lower rest)
  end.

Definition digito (a : ascii) : option Z :=
  let n := nat_of_ascii a in
  if (48 <=? n)%nat && (n <=? 57)%nat then Some (Z.of_nat (n - 48)) else None.

Fixpoint numero_aux (acc : Z) (s : string) : option Z :=
  match s with
  | EmptyString => Some acc
  | String a rest =>
      match digito a with
      | Some d => numero_aux (10 * acc + d) rest
      | None => None
      end
  end.

Definition numero (s : string) : option Z :=
  match s with
  | EmptyString => None
  | _ => numero_aux 0 s
  end.

(** The text before the first ["/"] and the text after it. *)
Fixpoint partir (s : string) : string * option string :=
  match s with
  | EmptyString => (EmptyString, None)
  | String a rest =>
      if Ascii.eqb a "/" then (EmptyString, Some rest)
      else let '(x, y) := partir rest in (String a x, y)
  end.

(** ["mm/yyyy"]. *)
Definition mes_ano (s : string) : datetime :=
  match partir s with
  | (m, Some a) =>
      match numero m, numero a with
      | Some m, Some a =>
          if bool_decide (1 ≤ m ≤ 12) then Some (mkTs a m 1) else None
      | _, _ => None
      end
  | _ => None
  end.

(** ["dd/mm/yyyy"], day first. *)
Definition dia_mes_ano (s : string) : datetime :=
  match partir s with
  | (d, Some resto) =>
      match numero d, mes_ano resto with
      | Some d, Some t =>
          if bool_decide (1 ≤ d ≤ 31) then Some (mkTs (year t) (month t) d)
          else None
      | _, _ => None
      end
  | _ => None
  end.

Definition strptime (c : cell) : exn + datetime :=
  match c with
  | Null => inr NaT
  | Stamp t => inr (Some t)
  | Text s =>
      match mes_ano s with
      | Some t => inr (Some t)
      | None => inl (LibraryError "ValueError: time data does not match format")
      end
  | _ => inl (LibraryError "ValueError: time data does not match format")
  end.

Definition dayfirst (_ : list cell) (c : cell) : datetime :=
  match c with
  | Stamp t => Some t
  | Text s =>
      match dia_mes_ano s with
      | Some t => Some t
      | None => mes_ano s
      end
  | _ => NaT
  end.

(** A stand-in for the fitted model: the months after August 2025, with
    fixed predicted means. *)
Definition medias : list (Timestamp * Q) :=
  [ (mkTs 2025 9 1, 1205 # 10); (mkTs 2025 10 1, 1215 # 10);
    (mkTs 2025 11 1, 1304 # 10); (mkTs 2025 12 1, 1396 # 10);
    (mkTs 2026 1 1, 140 # 1) ].

Definition resultados : Results :=
  mkResults (λ n, match n with
                  | Steps k => inr (take (Z.to_nat k) medias)
                  | StepsNaN => inl (LibraryError "ValueError: steps")
                  end).

(** A world in which reading the sheet gives [df] and nothing else fails,
    except assigning to the cells listed in [somente_leitura]. *)
Definition mundo (df : exn + DataFrame) (somente_leitura : list Z) : World :=
  {| str_lower := lower;
     str_strip := λ s, s;
     read_excel := λ _ _, df;
     strptime_mY := strptime;
     parse_dayfirst := dayfirst;
     sarimax_fit := λ _, inr resultados;
     load_error := λ _, None;
     cell_error := λ linha _,
       if bool_decide (linha ∈ somente_leitura)
       then Some (LibraryError "AttributeError: read-only") else None;
     save_error := λ _, None |}.

Definition inicio (wb : workbook) : State := mkState [] wb.

(** Observations up to August 2025, out of order, one without quantity. *)
Definition tabela : DataFrame :=
  mkDf ["Data"; "QNT"]
       [ [Text "07/2025"; Int 110];
         [Text "06/2025"; Int 100];
         [Text "05/2025"; Null];
         [Text "08/2025"; Int 120] ].

(** The same, with one date that only the lenient parser rejects. *)
Definition tabela_suja : DataFrame :=
  mkDf ["Mes ref"; "QNT"]
       [ [Text "15/07/2025"; Int 110];
         [Text "sem data"; Int 100];
         [Text "08/2025"; Int 120] ].

(** No date column at all. *)
Definition tabela_sem_data : DataFrame :=
  mkDf ["QNT"; "Valor"] [ [Int 110; Int 3] ].

(** A date column in which nothing is a date. *)
Definition tabela_ilegivel : DataFrame :=
  mkDf ["Data"; "QNT"] [ [Text "ontem"; Int 110]; [Text "??"; Int 100] ].

(** The world of the examples: nothing fails. *)
Definition W : World := mundo (inr tabela) [].

(** Two cleaned series, ending in August and in December. *)
Definition ate_agosto : list (datetime * cell) :=
  [ (Some (mkTs 2025 6 1), Int 100); (Some (mkTs 2025 8 1), Int 120) ].

Definition ate_dezembro : list (datetime * cell) :=
  [ (Some (mkTs 2025 11 1), Int 100); (Some (mkTs 2025 12 1), Int 120) ].

End Exemplo.

(** ** Vocabulary of the properties *)

(** [st] after the events [evs]. *)
Definition apos (st : State) (evs : list event) : State :=
  mkState (trace st ++ evs) (disk st).

(** The value parses under the strict month/year format. *)
Definition parses_strict (w : World) (x : cell) : Prop :=
  ∃ d, strptime_mY w x = inr d.

(** [t] is the last observed date of the index [l]. *)
Definition ultima (l : list datetime) (t : Timestamp) : Prop :=
  Some t ∈ l ∧ ∀ u, Some u ∈ l → ts_le u t.

Definition arredondar (p : Timestamp * Q) : previsao :=
  mkPrev p.1 (py_round p.2).

Definition anuncio (p : Timestamp * Q) : event :=
  Print (PrevisaoPara p.1 (py_round p.2)).

Definition is_save (e : event) : bool :=
  match e with Save => true | _ => false end.

Definition is_set_cell (e : event) : bool :=
  match e with SetCell _ _ _ _ => true | _ => false end.

(** The event is an operation on the workbook being written. *)
Definition toca_planilha (e : event) : bool :=
  match e with
  | LoadWorkbook | CreateSheet _ | SetCell _ _ _ _ | Save => true
  | _ => false
  end.

Definition conta (f : event → bool) (evs : list event) : nat :=
  length (List.filter f evs).

(** The value at (row, column) of a sheet of a workbook. *)
Definition celula (wb : workbook) (aba : string) (linha col : Z)
  : option cell :=
  wb !! aba ≫= λ folha : gmap (Z * Z) cell, folha !! (linha, col).

(** The workbook after the write loop has run over [ps], row by row. *)
Fixpoint planilha_escrita (linhas : list Z) (ps : list previsao)
    (wb : workbook) : workbook :=
  match linhas, ps with
  | l :: linhas, p :: ps => planilha_escrita linhas ps (grava wb l (p_previsao p))
  | _, _ => wb
  end.

(** What the write loop does and prints meanwhile. *)
Fixpoint eventos_escrita (linhas : list Z) (ps : list previsao) : list event :=
  match linhas, ps with
  | l :: linhas, p :: ps =>
      SetCell aba_alvo l coluna_alvo (p_previsao p)
      :: Print (ValorSalvo (p_previsao p) (p_data p) l)
      :: eventos_escrita linhas ps
  | _, _ => []
  end.

(** The loaded workbook with the target sheet in it. *)
Definition com_aba (wb : workbook) : workbook :=
  match wb !! aba_alvo with
  | Some _ => wb
  | None => <[aba_alvo := ∅]> wb
  end.

Definition eventos_aba (wb : workbook) : list event :=
  match wb !! aba_alvo with
  | Some _ => []
  | None => [Print (AvisoAbaCriada aba_alvo); CreateSheet aba_alvo]
  end.

(** Among the events a run added there is no save. *)
Definition sem_salvar (evs : list event) : Prop :=
  Forall (λ e, is_save e = false) evs.

(** There is exactly one save; before it, as many cell writes as there are
    target rows; after it, no operation on the workbook. *)
Definition salvou_uma_vez (evs : list event) : Prop :=
  ∃ pre post,
    evs = pre ++ Save :: post ∧
    Forall (λ e, is_save e = false) pre ∧
    conta is_set_cell pre = length linhas_alvo ∧
    Forall (λ e, toca_planilha e = false) post.

(** Either the run never saved and the file is as it was, or it saved once,
    after the whole write loop, nothing having failed until then. *)
Definition disciplina (w : World) (st : State) (r : Outcome unit * State)
  : Prop :=
  ∃ evs, trace r.2 = trace st ++ evs ∧
    ((sem_salvar evs ∧ disk r.2 = disk st) ∨
     (salvou_uma_vez evs ∧ r.1 = Done tt ∧
      load_error w (disk st) = None ∧
      ∀ linha, linha ∈ linhas_alvo → cell_error w linha coluna_alvo = None)).

(** A computation that leaves the workbook alone, in memory and on disk. *)
Definition calmo {A} (c : Script A) : Prop :=
  ∀ st, ∃ evs, (c st).2 = apos st evs ∧
               Forall (λ e, toca_planilha e = false) evs.

(** [n] occurs in [h]. *)
Definition substring_of (n h : string) : Prop :=
  ∃ pre post, h = String.append pre (String.append n post).

Definition palavras : list string := ["data"; "mes"; "mês"; "month"; "date"].

(** The lowercased label contains one of the five substrings. *)
Definition sugere_data (w : World) (c : string) : Prop :=
  ∃ p, p ∈ palavras ∧ substring_of p (str_lower w c).

(** [c] is the first label of [cols], in order, that satisfies [P]. *)
Definition first_that (P : string → Prop) (cols : list string) (c : string)
  : Prop :=
  ∃ pre post, cols = pre ++ c :: post ∧ P c ∧ ∀ x, x ∈ pre → ¬ P x.

(** Every event the computation adds satisfies [P]. *)
Definition emite {A} (P : event → Prop) (c : Script A) : Prop :=
  ∀ st, ∃ evs, trace (c st).2 = trace st ++ evs ∧ Forall P evs.


(** The event is not the final success line. *)
Definition nao_sucesso (e : event) : Prop :=
  match e with
  | Print (Sucesso _ _) => False
  | _ => True
  end.

(** The cells the write loop sets when it runs over [ps], a later write to
    the same cell taking the place of an earlier one. *)
Fixpoint celulas_novas (linhas : list Z) (ps : list previsao)
  : gmap (Z * Z) cell :=
  match linhas, ps with
  | l :: linhas, p :: ps =>
      celulas_novas linhas ps ∪ {[ (l, coluna_alvo) := Int (p_previsao p) ]}
  | _, _ => ∅
  end.

(** * Results *)

(** ** Substrings *)

Lemma prefix_append n h :
  String.prefix n h = true ↔ ∃ post, h = String.append n post.
Proof.
  revert h. induction n as [|a n IH]; intros [|b h]; simpl.
  - split; [intros _; by exists EmptyString | done].
  - split; [intros _; by exists (String b h) | done].
  - split; [done | intros [post Hp]; discriminate].
  - destruct (Ascii.ascii_dec a b) as [->|Hne].
    + rewrite IH. split; intros [post Hp]; exists post.
      * by rewrite Hp.
      * change (String b n +:+ post) with (String b (n +:+ post)) in Hp.
        congruence.
    + split; [done | intros [post Hp]].
      change (String a n +:+ post) with (String a (n +:+ post)) in Hp.
      congruence.
Qed.

Lemma contains_unfold n h :
  contains n h =
    String.prefix n h ||
    match h with EmptyString => false | String _ rest => contains n rest end.
Proof. by destruct h. Qed.

Lemma contains_spec n h : contains n h = true ↔ substring_of n h.
Proof.
  unfold substring_of. induction h as [|a h IH]; rewrite contains_unfold.
  - rewrite orb_false_r, prefix_append. split.
    + intros [post Hp]. by exists EmptyString, post.
    + intros [[|b pre] [post Hp]]; [by exists post | discriminate].
  - rewrite orb_true_iff, prefix_append, IH. split.
    + intros [[post Hp] | (pre & post & ->)].
      * by exists EmptyString, post.
      * by exists (String a pre), post.
    + intros [[|b pre] [post Hp]].
      * left. by exists post.
      * right.
        change (String b pre +:+ n +:+ post)
          with (String b (pre +:+ n +:+ post)) in Hp.
        injection Hp as -> ->. by exists pre, post.
Qed.

Section Resolver.

Variable w : World.

Lemma heuristica_spec c : heuristica w c = true ↔ sugere_data w c.
Proof.
  unfold heuristica, sugere_data, palavras.
  rewrite !orb_true_iff, !contains_spec. split.
  - intros [[[[H|H]|H]|H]|H]; eexists; (split; [|exact H]); set_solver.
  - intros (p & Hp & H).
    repeat (apply elem_of_cons in Hp as [->|Hp]; [tauto|]).
    by apply elem_of_nil in Hp.
Qed.

Lemma varrer_first cols c :
  varrer w cols = Some c ↔ first_that (sugere_data w) cols c.
Proof.
  unfold first_that. induction cols as [|x cols IH]; simpl.
  - split; [done | intros ([|??] & ? & ? & _); discriminate].
  - destruct (heuristica w x) eqn:Hx.
    + apply heuristica_spec in Hx. split.
      * intros [= ->]. exists [], cols.
        repeat split; [done|]. intros y Hy. by apply elem_of_nil in Hy.
      * intros ([|y pre] & post & Heq & Hc & Hpre);
          injection Heq as -> ->; [done|].
        destruct (Hpre y); [apply list_elem_of_here | done].
    + assert (¬ sugere_data w x) as Hnx
        by (rewrite <- heuristica_spec; congruence).
      rewrite IH. split.
      * intros (pre & post & -> & Hc & Hpre).
        exists (x :: pre), post. repeat split; [done|].
        intros y [->|Hy]%elem_of_cons; auto.
      * intros ([|y pre] & post & Heq & Hc & Hpre);
          injection Heq as -> ->; [done|].
        exists pre, post. repeat split; [done|].
        intros z Hz. apply Hpre. by apply list_elem_of_further.
Qed.

Lemma varrer_none cols :
  varrer w cols = None ↔ ∀ c, c ∈ cols → ¬ sugere_data w c.
Proof.
  induction cols as [|x cols IH]; simpl.
  - split; [|done]. intros _ c Hc. by apply elem_of_nil in Hc.
  - destruct (heuristica w x) eqn:Hx.
    + apply heuristica_spec in Hx. split; [done|].
      intros H. destruct (H x); [apply list_elem_of_here | done].
    + assert (¬ sugere_data w x) as Hnx
        by (rewrite <- heuristica_spec; congruence).
      rewrite IH. split.
      * intros H c [->|Hc]%elem_of_cons; auto.
      * intros H c Hc. apply H. by apply list_elem_of_further.
Qed.

(** C1. The date column the script settles on: ["Data"] whenever a column
    has exactly that label; otherwise the first label, in the order of the
    columns, whose lowercase form contains one of "data", "mes", "mês",
    "month", "date"; and in no other way. *)
Theorem date_col_selection (cols : list string) (c : string) :
  detectar w cols = Some c ↔
    ("Data" ∈ cols ∧ c = "Data") ∨
    (("Data" ∉ cols) ∧ first_that (sugere_data w) cols c).
Proof.
  unfold detectar. case_bool_decide as HD.
  - split; [intros [= <-]; by left | intros [[_ ->]|[? _]]; done].
  - rewrite varrer_first. split; [by right | intros [[? _]|[_ ?]]; done].
Qed.


(** No ["Data"] and no label that looks like a date: [date_col] was never
    assigned, and reading it at line 45 raises. *)
Lemma resolver_unbound cols st :
  "Data" ∉ cols → (∀ c, c ∈ cols → ¬ sugere_data w c) →
  resolver w cols st = (Raised (NameError "date_col"), st).
Proof.
  intros HD Hnone. unfold resolver, detectar.
  rewrite bool_decide_eq_false_2 by done.
  by rewrite (proj2 (varrer_none cols) Hnone).
Qed.

End Resolver.

Lemma carregar_ok w st df :
  read_excel w (disk st) aba_dados_limpos = inr df →
  carregar w st =
    (Done (mkDf (str_strip w <$> columns df) (rows df)),
     apos st [ReadExcel aba_dados_limpos;
              Print (ColunasDetectadas aba_dados_limpos
                       (str_strip w <$> columns df))]).
Proof.
  intros Hread.
  unfold carregar, Py.try_except, Py.bind, Py.get_disk, Py.emit, Py.print,
    Py.emit, Py.lift. simpl. rewrite Hread. simpl.
  unfold apos. simpl. by rewrite <- app_assoc.
Qed.

(** C2. A sheet that reads fine, with no ["Data"] column and no label that
    looks like a date, does not reach the diagnostic of lines 46-49:
    [date_col] is unbound when line 45 reads it and the script dies of
    [NameError].  Only the "columns detected" line of line 33 was printed;
    the "no date column" message, the list of columns found and
    [sys.exit()] never run. *)
Theorem resolver_no_match_raises_NameError
    (w : World) (st : State) (df : DataFrame) :
  read_excel w (disk st) aba_dados_limpos = inr df →
  "Data" ∉ (str_strip w <$> columns df) →
  (∀ c, c ∈ (str_strip w <$> columns df) → ¬ sugere_data w c) →
  resolver w (str_strip w <$> columns df)
    (apos st [ReadExcel aba_dados_limpos;
              Print (ColunasDetectadas aba_dados_limpos
                       (str_strip w <$> columns df))]) =
    (Raised (NameError "date_col"),
     apos st [ReadExcel aba_dados_limpos;
              Print (ColunasDetectadas aba_dados_limpos
                       (str_strip w <$> columns df))]) ∧
  main w st =
    (Raised (NameError "date_col"),
     apos st [ReadExcel aba_dados_limpos;
              Print (ColunasDetectadas aba_dados_limpos
                       (str_strip w <$> columns df))]).
Proof.
  intros Hread HD Hnone. split; [by apply resolver_unbound|].
  unfold main. unfold Py.bind at 1. rewrite (carregar_ok w st df Hread).
  unfold Py.bind at 1. cbn [columns].
  by rewrite resolver_unbound.
Qed.

(** ** Dates *)

Section Normalizer.

Variable w : World.

Lemma to_datetime_strict_inr col ds :
  to_datetime_strict w col = inr ds ↔
  Forall2 (λ x d, strptime_mY w x = inr d) col ds.
Proof.
  revert ds. induction col as [|x col IH]; intros ds; simpl.
  - split; [intros [= <-]; constructor | by inversion 1].
  - destruct (strptime_mY w x) as [e|d] eqn:Hx.
    + split; [done | inversion 1; congruence].
    + destruct (to_datetime_strict w col) as [e|ds'] eqn:Hcol.
      * split; [done|]. inversion 1 as [|???? _ Hrest]; subst.
        by apply IH in Hrest.
      * split.
        -- intros [= <-]. constructor; [done | by apply IH].
        -- inversion 1 as [|???? Hd Hrest]; subst.
           apply IH in Hrest. congruence.
Qed.

Lemma to_datetime_strict_ok col :
  Forall (parses_strict w) col ↔ ∃ ds, to_datetime_strict w col = inr ds.
Proof.
  split.
  - induction 1 as [|x col [d Hd] _ [ds IH]]; simpl; [by eexists|].
    rewrite Hd, IH. by eexists.
  - intros [ds Hds]. apply to_datetime_strict_inr in Hds.
    induction Hds; constructor; [by eexists | done].
Qed.

Lemma to_datetime_strict_raises col :
  ¬ Forall (parses_strict w) col → ∃ e, to_datetime_strict w col = inl e.
Proof.
  intros Hno. destruct (to_datetime_strict w col) as [e|ds] eqn:H;
    [by eexists|].
  destruct Hno. apply to_datetime_strict_ok. by eexists.
Qed.

(** What the [except] branch of lines 55-63 does. *)
Lemma normalizar_fallback df date_col col st :
  coluna df date_col = inr col →
  ¬ Forall (parses_strict w) col →
  normalizar w df date_col st =
    if forallb isnat (to_datetime_coerce w col)
    then (SysExit 0,
          apos st [Print (ErroConverter date_col); Print VerifiqueFormato])
    else (Done (to_datetime_coerce w col),
          apos st [Print (AvisoParserFlexivel date_col)]).
Proof.
  intros Hcol [e He]%to_datetime_strict_raises.
  unfold normalizar, Py.try_except, Py.bind, Py.lift.
  rewrite Hcol. simpl. rewrite He. simpl.
  destruct (forallb isnat (to_datetime_coerce w col)); simpl.
  - unfold apos. by rewrite <- app_assoc.
  - done.
Qed.

Lemma normalizar_strict df date_col col st :
  coluna df date_col = inr col →
  Forall (parses_strict w) col →
  ∃ ds, normalizar w df date_col st = (Done ds, st) ∧
        to_datetime_strict w col = inr ds.
Proof.
  intros Hcol [ds Hds]%to_datetime_strict_ok. exists ds.
  unfold normalizar, Py.try_except, Py.bind, Py.lift.
  rewrite Hcol. simpl. by rewrite Hds.
Qed.

End Normalizer.

Lemma forallb_isnat_fmap {A} (f : A → datetime) (l : list A) :
  forallb isnat (f <$> l) = true ↔ Forall (λ x, f x = NaT) l.
Proof.
  induction l as [|x l IH]; simpl.
  - split; [constructor | done].
  - rewrite andb_true_iff, IH, Forall_cons.
    destruct (f x); simpl; split; intros [? ?]; done.
Qed.

Lemma not_forallb_isnat_fmap {A} (f : A → datetime) (l : list A) :
  Exists (λ x, f x ≠ NaT) l → forallb isnat (f <$> l) = false.
Proof.
  intros Hex. apply not_true_is_false. intros Hall.
  apply forallb_isnat_fmap in Hall.
  apply Exists_exists in Hex as (x & Hx & Hne).
  rewrite Forall_forall in Hall. destruct Hne. by apply Hall.
Qed.

(** C3. The strict month/year parse is the result exactly when every value
    of the date column parses strictly, and then each date is the strict
    parse of its value.  As soon as one value does not, nothing of the
    strict parse is kept and the whole column goes through the lenient
    day-first parser: if that leaves every value null the script stops with
    the format error; otherwise it goes on with, for every value of the
    column, its lenient parse (null where it does not parse), and prints
    the warning. *)
Theorem two_tier_date_parsing
    (w : World) (df : DataFrame) (date_col : string) (col : list cell)
    (st : State) :
  coluna df date_col = inr col →
  (Forall (parses_strict w) col →
     ∃ ds, normalizar w df date_col st = (Done ds, st) ∧
           Forall2 (λ x d, strptime_mY w x = inr d) col ds) ∧
  (¬ Forall (parses_strict w) col →
     (Forall (λ x, parse_dayfirst w col x = NaT) col →
        normalizar w df date_col st =
          (SysExit 0,
           apos st [Print (ErroConverter date_col); Print VerifiqueFormato])) ∧
     (Exists (λ x, parse_dayfirst w col x ≠ NaT) col →
        normalizar w df date_col st =
          (Done (parse_dayfirst w col <$> col),
           apos st [Print (AvisoParserFlexivel date_col)]))).
Proof.
  intros Hcol. split.
  - intros Hall. destruct (normalizar_strict w df date_col col st Hcol Hall)
      as (ds & Hrun & Hds).
    exists ds. split; [done|]. by apply to_datetime_strict_inr.
  - intros Hno. rewrite (normalizar_fallback w df date_col col st Hcol Hno).
    unfold to_datetime_coerce. split; intros H.
    + by rewrite (proj2 (forallb_isnat_fmap _ _) H).
    + by rewrite (not_forallb_isnat_fmap _ _ H).
Qed.

(** C4. After the lenient parse: every value null, the script prints the
    date-format error and exits; otherwise (so also when only some are null)
    it goes on with the lenient dates and prints the warning that some
    values may have become NaT. *)
Theorem fallback_outcome_policy
    (w : World) (df : DataFrame) (date_col : string) (col : list cell)
    (st : State) :
  coluna df date_col = inr col →
  ¬ Forall (parses_strict w) col →
  (Forall (λ d, d = NaT) (to_datetime_coerce w col) →
     normalizar w df date_col st =
       (SysExit 0,
        apos st [Print (ErroConverter date_col); Print VerifiqueFormato])) ∧
  (Exists (λ d, d ≠ NaT) (to_datetime_coerce w col) →
     normalizar w df date_col st =
       (Done (to_datetime_coerce w col),
        apos st [Print (AvisoParserFlexivel date_col)])).
Proof.
  intros Hcol Hno.
  rewrite (normalizar_fallback w df date_col col st Hcol Hno).
  split; intros H.
  - replace (forallb isnat (to_datetime_coerce w col)) with true; [done|].
    symmetry. apply forallb_forall. intros d Hd.
    rewrite Forall_forall in H. apply list_elem_of_In in Hd.
    by rewrite (H d Hd).
  - replace (forallb isnat (to_datetime_coerce w col)) with false; [done|].
    symmetry. apply not_true_is_false. intros Hall.
    apply Exists_exists in H as (d & Hd & Hne).
    apply list_elem_of_In in Hd.
    pose proof (proj1 (forallb_forall _ _) Hall d Hd) as Hnat.
    by destruct d.
Qed.

(** ** Sorting and dropping *)

#[global] Instance ts_le_trans : Transitive ts_le.
Proof. intros a b c. unfold ts_le. lia. Qed.

#[global] Instance ts_le_total : Total ts_le.
Proof. intros a b. unfold ts_le. lia. Qed.

Lemma ts_le_antisym a b : ts_le a b → ts_le b a → a = b.
Proof.
  destruct a, b. unfold ts_le. simpl. intros H1 H2.
  f_equal; lia.
Qed.

#[global] Instance date_le_trans : Transitive date_le.
Proof.
  intros [a|] [b|] [c|]; simpl; try done. apply ts_le_trans.
Qed.

#[global] Instance date_le_total : Total date_le.
Proof.
  intros [a|] [b|]; simpl; try tauto. apply ts_le_total.
Qed.

#[global] Instance por_data_trans : Transitive por_data.
Proof. intros a b c. unfold por_data. apply date_le_trans. Qed.

#[global] Instance por_data_total : Total por_data.
Proof. intros a b. unfold por_data. apply date_le_total. Qed.

Section Sorted_facts.

Context {A : Type} (R : relation A).

Lemma StronglySorted_filter (P : A → Prop) `{∀ x, Decision (P x)} l :
  StronglySorted R l → StronglySorted R (filter P l).
Proof.
  induction 1 as [|x l _ IH Hx]; [constructor|].
  destruct (decide (P x)).
  - rewrite filter_cons_True by done. constructor; [done|].
    rewrite Forall_forall in *. intros y [_ Hy]%list_elem_of_filter. auto.
  - by rewrite filter_cons_False.
Qed.

Lemma StronglySorted_lookup l (j k : nat) x y :
  StronglySorted R l → (j < k)%nat →
  l !! j = Some x → l !! k = Some y → R x y.
Proof.
  intros Hs. revert j k. induction Hs as [|z l _ IH Hz]; intros j k Hjk Hj Hk.
  - done.
  - destruct k as [|k]; [lia|]. simpl in Hk. destruct j as [|j].
    + injection Hj as ->. rewrite Forall_forall in Hz.
      apply Hz. by eapply list_elem_of_lookup_2.
    + simpl in Hj. apply (IH j k); [lia | done | done].
Qed.

End Sorted_facts.

Lemma sort_values_sorted l : StronglySorted por_data (sort_values l).
Proof. apply StronglySorted_merge_sort; apply _. Qed.

Lemma sort_values_perm l : sort_values l ≡ₚ l.
Proof. apply merge_sort_Permutation. Qed.

(** Nothing but the rows without quantity is dropped, and nothing is added. *)
Lemma serie_limpa_perm i l :
  serie_limpa i l ≡ₚ serie_qnt i (filter (tem_qnt i) l).
Proof.
  unfold serie_limpa, serie_qnt, dropna.
  by rewrite sort_values_perm.
Qed.

Lemma serie_limpa_sorted i l :
  StronglySorted (λ a b, date_le a.1 b.1) (serie_limpa i l).
Proof.
  unfold serie_limpa, serie_qnt.
  apply (StronglySorted_fmap _ por_data); [done|].
  apply StronglySorted_filter, sort_values_sorted.
Qed.


Lemma limpar_sem_qnt df datas st :
  index_of "QNT" (columns df) = None →
  limpar df datas st = (Raised (KeyError "QNT"), st).
Proof. intros Hi. unfold limpar. by rewrite Hi. Qed.

(** C5. The series handed to the model: no entry with a missing quantity;
    in date order, an entry never followed by one with an earlier date
    (entries whose date is NaT come after all dated ones); and otherwise the
    input rows as they were, equal dates and repeated rows included. *)
Theorem cleaned_series_invariant (i : nat) (l : list (datetime * list cell)) :
  Forall (λ o, isna o.2 = false) (serie_limpa i l) ∧
  StronglySorted (λ a b, date_le a.1 b.1) (serie_limpa i l) ∧
  (∀ (j k : nat) a b va vb, (j < k)%nat →
     serie_limpa i l !! j = Some (Some a, va) →
     serie_limpa i l !! k = Some (Some b, vb) → ts_le a b) ∧
  serie_limpa i l ≡ₚ serie_qnt i (filter (tem_qnt i) l).
Proof.
  repeat split.
  - rewrite serie_limpa_perm. unfold serie_qnt.
    rewrite Forall_fmap, Forall_forall.
    by intros r [Hr _]%list_elem_of_filter.
  - apply serie_limpa_sorted.
  - intros j k a b va vb Hjk Hj Hk.
    by apply (StronglySorted_lookup _ _ j k _ _ (serie_limpa_sorted i l) Hjk Hj Hk).
  - apply serie_limpa_perm.
Qed.


(** ** Forecast count *)

Lemma index_max_None l : index_max l = None → ∀ u, Some u ∉ l.
Proof.
  induction l as [|[t|] l IH]; simpl; intros H u Hu.
  - by apply elem_of_nil in Hu.
  - by destruct (index_max l).
  - apply elem_of_cons in Hu as [?|Hu]; [done|]. by apply (IH H u).
Qed.

Lemma index_max_Some l t :
  index_max l = Some t → Some t ∈ l ∧ ∀ u, Some u ∈ l → ts_le u t.
Proof.
  revert t. induction l as [|[x|] l IH]; simpl; intros t H.
  - done.
  - destruct (index_max l) as [m|] eqn:Hm.
    + destruct (IH m eq_refl) as [Hin Hmax].
      injection H as <-. unfold ts_max. case_decide as Hxm.
      * split; [by apply list_elem_of_further|].
        intros u [[= ->]|Hu]%elem_of_cons; auto.
      * split; [apply list_elem_of_here|].
        assert (ts_le m x) by (destruct (ts_le_total x m); done).
        intros u [[= ->]|Hu]%elem_of_cons.
        -- destruct (ts_le_total x x); done.
        -- by trans m; [apply Hmax|].
    + injection H as <-. split; [apply list_elem_of_here|].
      intros u [[= ->]|Hu]%elem_of_cons.
      * destruct (ts_le_total x x); done.
      * by destruct (index_max_None l Hm u).
  - destruct (IH t H) as [Hin Hmax]. split; [by apply list_elem_of_further|].
    intros u [?|Hu]%elem_of_cons; [done | auto].
Qed.

Lemma index_max_ultima l t : ultima l t → index_max l = Some t.
Proof.
  intros [Hin Hmax]. destruct (index_max l) as [m|] eqn:Hm.
  - destruct (index_max_Some l m Hm) as [Hin' Hmax'].
    f_equal. apply ts_le_antisym; auto.
  - by destruct (index_max_None l Hm t).
Qed.

(** C6. With [m] the month of the last observed date, the script asks the
    model for exactly [12 - m] steps; when [12 - m <= 0], so for December,
    it asks for nothing, prints that the data is already complete and leaves
    through [sys.exit()] with status 0, no exception raised. *)
Theorem forecast_count_derivation
    (results : Results) (y : list (datetime * cell)) (t : Timestamp)
    (st : State) :
  ultima (fst <$> y) t →
  num_previsoes (index_max (fst <$> y)) = Steps (12 - month t) ∧
  (12 - month t ≤ 0 →
     prever results y st =
       (SysExit 0, apos st [Print (DadosCompletos ano_para_prever)])) ∧
  (0 < 12 - month t →
     prever results y st =
       Py.lift (get_forecast results (Steps (12 - month t)))
         (apos st [Print (CalculandoPrevisoes (Steps (12 - month t))
                            ano_para_prever);
                   GetForecast (Steps (12 - month t))])).
Proof.
  intros Hult. apply index_max_ultima in Hult.
  unfold prever. rewrite Hult. simpl. unfold mes_final_desejado.
  split; [done|]. split; intros Hm.
  - by rewrite bool_decide_eq_true_2.
  - rewrite bool_decide_eq_false_2 by lia.
    unfold Py.bind, Py.print, Py.emit, apos. simpl.
    by rewrite <- app_assoc.
Qed.

(** ** Rounding and writing *)

Lemma py_round_nearest x : (Qabs (x - inject_Z (py_round x)) <= 1 # 2)%Q.
Proof.
  unfold py_round.
  pose proof (Qfloor_le x) as Hlo. pose proof (Qlt_floor x) as Hhi.
  rewrite inject_Z_plus in Hhi. change (inject_Z 1) with 1%Q in Hhi.
  apply Qabs_Qle_condition.
  destruct (Qcompare_spec (x - inject_Z (Qfloor x)) (1 # 2)) as [He|Hl|Hg].
  - destruct (Z.even (Qfloor x)).
    + split; lra.
    + rewrite inject_Z_plus. change (inject_Z 1) with 1%Q. split; lra.
  - split; lra.
  - rewrite inject_Z_plus. change (inject_Z 1) with 1%Q. split; lra.
Qed.

Lemma apos_nil st : apos st [] = st.
Proof. destruct st. unfold apos. simpl. by rewrite app_nil_r. Qed.

Lemma apos_apos st l1 l2 : apos (apos st l1) l2 = apos st (l1 ++ l2).
Proof. unfold apos. simpl. by rewrite app_assoc. Qed.

Lemma processar_run serie st :
  processar serie st = (Done (arredondar <$> serie), apos st (anuncio <$> serie)).
Proof.
  revert st. induction serie as [|[d q] serie IH]; intros st; simpl.
  - by rewrite apos_nil.
  - unfold Py.bind, Py.print, Py.emit. simpl.
    change (mkState (trace st ++ [Print (PrevisaoPara d (py_round q))]) (disk st))
      with (apos st [Print (PrevisaoPara d (py_round q))]).
    rewrite IH, apos_apos. done.
Qed.

(** C7. The model returned a number of forecasts other than the number of
    target rows: after announcing the forecasts the script prints the
    mismatch and leaves through [sys.exit()]; no workbook is loaded, no cell
    is written, nothing is saved, and the file on disk is as it was. *)
Theorem consistency_check_precedes_writing
    (w : World) (serie : list (Timestamp * Q)) (st : State) :
  length serie ≠ length linhas_alvo →
  (ps <- processar serie ;; gravar w ps) st =
    (SysExit 0,
     apos st ((anuncio <$> serie) ++
              [Print (EscrevendoPrevisoes aba_alvo);
               Print (ErroDivergencia (length serie) (length linhas_alvo));
               Print AjusteLinhasAlvo])) ∧
  Forall (λ e, toca_planilha e = false)
    ((anuncio <$> serie) ++
     [Print (EscrevendoPrevisoes aba_alvo);
      Print (ErroDivergencia (length serie) (length linhas_alvo));
      Print AjusteLinhasAlvo]).
Proof.
  intros Hlen. split.
  - unfold Py.bind at 1. rewrite processar_run.
    unfold gravar. rewrite length_fmap.
    apply Nat.eqb_neq in Hlen. rewrite Hlen. simpl.
    unfold Py.bind, Py.print, Py.emit, Py.sys_exit, apos. simpl.
    by rewrite <- !app_assoc.
  - apply Forall_app. split.
    + apply Forall_fmap, Forall_forall. by intros [d q] _.
    + by repeat constructor.
Qed.

Section Writer.

Variable w : World.

Lemma atribuir_ok wb linha v st :
  cell_error w linha coluna_alvo = None →
  atribuir w wb linha v st =
    (Done (grava wb linha v), apos st [SetCell aba_alvo linha coluna_alvo v]).
Proof.
  intros H. unfold atribuir, Py.bind, Py.emit. simpl. by rewrite H.
Qed.

Lemma atribuir_falha wb linha v st e :
  cell_error w linha coluna_alvo = Some e →
  atribuir w wb linha v st =
    (Raised e, apos st [SetCell aba_alvo linha coluna_alvo v]).
Proof.
  intros H. unfold atribuir, Py.bind, Py.emit. simpl. by rewrite H.
Qed.

Lemma selecionar_aba_run wb st :
  selecionar_aba wb st = (Done (com_aba wb), apos st (eventos_aba wb)).
Proof.
  unfold selecionar_aba, com_aba, eventos_aba.
  destruct (wb !! aba_alvo); simpl.
  - by rewrite apos_nil.
  - unfold Py.bind, Py.print, Py.emit, apos. simpl. by rewrite <- app_assoc.
Qed.

(** One turn of the write loop. *)
Lemma escrever_cons p ps (i : nat) wb st :
  escrever w i (p :: ps) wb st =
    match linhas_alvo !! i with
    | None => (Raised IndexError, st)
    | Some l =>
        match cell_error w l coluna_alvo with
        | Some e =>
            (Raised e, apos st [SetCell aba_alvo l coluna_alvo (p_previsao p)])
        | None =>
            escrever w (S i) ps (grava wb l (p_previsao p))
              (apos st [SetCell aba_alvo l coluna_alvo (p_previsao p);
                        Print (ValorSalvo (p_previsao p) (p_data p) l)])
        end
    end.
Proof.
  cbn [escrever]. destruct (linhas_alvo !! i) as [l|]; [|done].
  unfold Py.bind at 1. unfold Py.ret at 1. unfold Py.bind at 1.
  destruct (cell_error w l coluna_alvo) as [e|] eqn:He.
  - by rewrite (atribuir_falha wb l _ st e He).
  - rewrite (atribuir_ok wb l _ st He).
    unfold Py.bind at 1. unfold Py.print, Py.emit.
    f_equal. unfold apos. simpl. by rewrite <- app_assoc.
Qed.

Lemma escrever_ok ps (i : nat) wb st :
  (∀ linha, linha ∈ linhas_alvo → cell_error w linha coluna_alvo = None) →
  (length ps ≤ length (drop i linhas_alvo))%nat →
  escrever w i ps wb st =
    (Done (planilha_escrita (drop i linhas_alvo) ps wb),
     apos st (eventos_escrita (drop i linhas_alvo) ps)).
Proof.
  intros Hcell. revert i wb st.
  induction ps as [|p ps IH]; intros i wb st Hlen.
  - destruct (drop i linhas_alvo); simpl; by rewrite apos_nil.
  - rewrite escrever_cons.
    destruct (linhas_alvo !! i) as [l|] eqn:Hl.
    2: { apply lookup_ge_None in Hl. rewrite length_drop in Hlen.
         cbn [length] in Hlen. lia. }
    rewrite (drop_S _ _ _ Hl) in Hlen |- *.
    cbn [length planilha_escrita eventos_escrita] in Hlen |- *.
    rewrite Hcell by (by eapply list_elem_of_lookup_2).
    rewrite IH by lia. by rewrite !apos_apos.
Qed.

(** The write section when nothing fails. *)
Lemma gravar_ok ps st :
  length ps = length linhas_alvo →
  load_error w (disk st) = None →
  (∀ linha, linha ∈ linhas_alvo → cell_error w linha coluna_alvo = None) →
  save_error w (planilha_escrita linhas_alvo ps (com_aba (disk st))) = None →
  gravar w ps st =
    (Done tt,
     mkState
       (trace st ++
        [Print (EscrevendoPrevisoes aba_alvo); LoadWorkbook] ++
        eventos_aba (disk st) ++ eventos_escrita linhas_alvo ps ++
        [Save; Print (Sucesso (length ps) nome_arquivo)])
       (planilha_escrita linhas_alvo ps (com_aba (disk st)))).
Proof.
  intros Hlen Hload Hcell Hsave. unfold gravar.
  rewrite Hlen, Nat.eqb_refl. simpl.
  unfold Py.bind at 1, Py.print, Py.emit. simpl.
  unfold Py.try_except, abrir.
  unfold Py.bind at 1. unfold Py.bind at 1. unfold Py.get_disk. simpl.
  unfold Py.bind at 1, Py.emit. simpl. rewrite Hload. simpl.
  unfold Py.bind at 1. rewrite selecionar_aba_run.
  unfold Py.bind at 1.
  rewrite (escrever_ok ps 0) by (done || (rewrite Hlen; simpl; lia)).
  change (drop 0 linhas_alvo) with linhas_alvo. unfold salvar.
  unfold Py.bind, Py.emit.
  cbn -[planilha_escrita eventos_escrita linhas_alvo].
  rewrite Hsave.
  unfold Py.set_disk, Py.print, Py.emit.
  cbn -[planilha_escrita eventos_escrita linhas_alvo].
  do 2 f_equal. by rewrite <- !app_assoc.
Qed.

End Writer.

Section Cells.

Lemma celula_grava_eq wb linha v :
  celula (grava wb linha v) aba_alvo linha coluna_alvo = Some (Int v).
Proof.
  unfold celula, grava. rewrite lookup_insert_eq. simpl.
  by rewrite lookup_insert_eq.
Qed.

Lemma celula_grava_ne wb linha v aba l c :
  ¬ (aba = aba_alvo ∧ c = coluna_alvo ∧ l = linha) →
  celula (grava wb linha v) aba l c = celula wb aba l c.
Proof.
  intros Hne. unfold celula, grava, coluna_alvo in *.
  destruct (decide (aba = aba_alvo)) as [->|Haba].
  - rewrite lookup_insert_eq. simpl.
    rewrite lookup_insert_ne.
    + by destruct (wb !! aba_alvo).
    + intros [= Hl Hc]. apply Hne. repeat split; congruence.
  - by rewrite lookup_insert_ne.
Qed.

Lemma celula_com_aba wb aba l c :
  celula (com_aba wb) aba l c = celula wb aba l c.
Proof.
  unfold com_aba, celula. destruct (wb !! aba_alvo) eqn:H; [done|].
  destruct (decide (aba = aba_alvo)) as [->|Haba].
  - by rewrite lookup_insert_eq, H.
  - by rewrite lookup_insert_ne.
Qed.

Lemma celula_escrita_fora linhas ps wb aba l c :
  ¬ (aba = aba_alvo ∧ c = coluna_alvo ∧ l ∈ linhas) →
  celula (planilha_escrita linhas ps wb) aba l c = celula wb aba l c.
Proof.
  revert ps wb. induction linhas as [|x linhas IH]; intros [|p ps] wb Hne;
    simpl; try done.
  rewrite IH.
  - apply celula_grava_ne. intros (-> & -> & ->). apply Hne.
    repeat split. apply list_elem_of_here.
  - intros (-> & -> & Hin). apply Hne.
    repeat split. by apply list_elem_of_further.
Qed.

Lemma celula_escrita linhas ps wb (i : nat) l p :
  NoDup linhas →
  linhas !! i = Some l → ps !! i = Some p →
  celula (planilha_escrita linhas ps wb) aba_alvo l coluna_alvo =
    Some (Int (p_previsao p)).
Proof.
  intros Hnd. revert ps wb i.
  induction Hnd as [|x linhas Hx Hnd IH]; intros [|q ps] wb i Hl Hp;
    try done.
  destruct i as [|i]; simpl in *.
  - injection Hl as ->. injection Hp as ->.
    rewrite celula_escrita_fora by tauto.
    apply celula_grava_eq.
  - by apply (IH ps _ i).
Qed.

Lemma aba_escrita linhas ps wb :
  is_Some (wb !! aba_alvo) →
  is_Some (planilha_escrita linhas ps wb !! aba_alvo).
Proof.
  revert ps wb. induction linhas as [|x linhas IH]; intros [|p ps] wb H;
    simpl; try done.
  apply IH. unfold grava. rewrite lookup_insert_eq. by eexists.
Qed.

Lemma aba_com_aba wb : is_Some (com_aba wb !! aba_alvo).
Proof.
  unfold com_aba. destruct (wb !! aba_alvo) eqn:H.
  - rewrite H. by eexists.
  - rewrite lookup_insert_eq. by eexists.
Qed.

End Cells.

Lemma linhas_alvo_NoDup : NoDup linhas_alvo.
Proof.
  unfold linhas_alvo.
  repeat (constructor; [rewrite ?elem_of_cons, elem_of_nil; lia|]).
  constructor.
Qed.

(** C8. Four forecasts, a workbook that loads, target cells that accept a
    value and a save that goes through: afterwards the file holds, in sheet
    "graficos" (there now, whether or not it was before), at row
    [11; 12; 13; 14][i] and column 6, the i-th forecast rounded to a nearest
    integer, for each position i; every other cell of the workbook is as it
    was. *)
Theorem writer_placement
    (w : World) (serie : list (Timestamp * Q)) (st : State) :
  length serie = length linhas_alvo →
  load_error w (disk st) = None →
  (∀ linha, linha ∈ linhas_alvo → cell_error w linha coluna_alvo = None) →
  (∀ wb, save_error w wb = None) →
  ∃ st',
    (ps <- processar serie ;; gravar w ps) st = (Done tt, st') ∧
    is_Some (disk st' !! aba_alvo) ∧
    (∀ (i : nat) linha d q,
       linhas_alvo !! i = Some linha → serie !! i = Some (d, q) →
       celula (disk st') aba_alvo linha coluna_alvo = Some (Int (py_round q)) ∧
       (Qabs (q - inject_Z (py_round q)) <= 1 # 2)%Q) ∧
    (∀ aba linha col,
       ¬ (aba = aba_alvo ∧ col = coluna_alvo ∧ linha ∈ linhas_alvo) →
       celula (disk st') aba linha col = celula (disk st) aba linha col).
Proof.
  intros Hlen Hload Hcell Hsave.
  eexists. split.
  - unfold Py.bind. rewrite processar_run.
    apply gravar_ok; [by rewrite length_fmap | done | done | apply Hsave].
  - cbn [disk]. split; [apply aba_escrita, aba_com_aba|]. split.
    + intros i linha d q Hl Hq. split; [|apply py_round_nearest].
      apply (celula_escrita _ _ _ i _ (arredondar (d, q)));
        [apply linhas_alvo_NoDup | done |].
      by rewrite list_lookup_fmap, Hq.
    + intros aba linha col Hne.
      by rewrite celula_escrita_fora, celula_com_aba.
Qed.

(** ** The save discipline *)

Section Calmo.

Lemma calmo_ret {A} (a : A) : calmo (Py.ret a).
Proof. intros st. exists []. by rewrite apos_nil. Qed.

Lemma calmo_raise {A} e : calmo (@Py.raise A e).
Proof. intros st. exists []. by rewrite apos_nil. Qed.

Lemma calmo_sys_exit {A} : calmo (@Py.sys_exit A).
Proof. intros st. exists []. by rewrite apos_nil. Qed.

Lemma calmo_get_disk : calmo Py.get_disk.
Proof. intros st. exists []. by rewrite apos_nil. Qed.

Lemma calmo_lift {A} (r : exn + A) : calmo (Py.lift r).
Proof. destruct r; [apply calmo_raise | apply calmo_ret]. Qed.

Lemma calmo_emit e : toca_planilha e = false → calmo (Py.emit e).
Proof. intros H st. exists [e]. split; [done | by constructor]. Qed.

Lemma calmo_print m : calmo (Py.print m).
Proof. by apply calmo_emit. Qed.

Lemma calmo_bind {A B} (c : Script A) (k : A → Script B) :
  calmo c → (∀ a, calmo (k a)) → calmo (Py.bind c k).
Proof.
  intros Hc Hk st. destruct (Hc st) as (evs & Heq & Hq).
  unfold Py.bind. destruct (c st) as [[a|n|e] st1]; simpl in Heq; subst st1.
  - destruct (Hk a (apos st evs)) as (evs' & Heq' & Hq').
    exists (evs ++ evs'). rewrite Heq', apos_apos.
    split; [done | by apply Forall_app].
  - by exists evs.
  - by exists evs.
Qed.

Lemma calmo_try {A} (c : Script A) (h : exn → Script A) :
  calmo c → (∀ e, calmo (h e)) → calmo (Py.try_except c h).
Proof.
  intros Hc Hh st. destruct (Hc st) as (evs & Heq & Hq).
  unfold Py.try_except.
  destruct (c st) as [[a|n|e] st1]; simpl in Heq; subst st1.
  - by exists evs.
  - by exists evs.
  - destruct (Hh e (apos st evs)) as (evs' & Heq' & Hq').
    exists (evs ++ evs'). rewrite Heq', apos_apos.
    split; [done | by apply Forall_app].
Qed.

End Calmo.

Ltac calmo_step :=
  first
    [ apply calmo_bind; [|intros ?]
    | apply calmo_try; [|intros ?]
    | apply calmo_print
    | apply calmo_emit; reflexivity
    | apply calmo_ret
    | apply calmo_sys_exit
    | apply calmo_raise
    | apply calmo_lift
    | apply calmo_get_disk
    | match goal with
      | |- calmo (if ?b then _ else _) => destruct b
      | |- calmo (match ?x with _ => _ end) => destruct x
      end ].

Ltac calmo_tac := cbv zeta; repeat calmo_step.

Section Stages.

Variable w : World.

Lemma calmo_carregar : calmo (carregar w).
Proof. unfold carregar. calmo_tac. Qed.

Lemma calmo_resolver cols : calmo (resolver w cols).
Proof. unfold resolver. calmo_tac. Qed.

Lemma calmo_normalizar df c : calmo (normalizar w df c).
Proof. unfold normalizar. calmo_tac. Qed.

Lemma calmo_limpar df datas : calmo (limpar df datas).
Proof. unfold limpar. calmo_tac. Qed.

Lemma calmo_treinar y : calmo (treinar w y).
Proof. unfold treinar. calmo_tac. Qed.

Lemma calmo_prever r y : calmo (prever r y).
Proof. unfold prever. calmo_tac. Qed.

Lemma calmo_processar s : calmo (processar s).
Proof. induction s as [|[d q] s IH]; simpl; calmo_tac. apply IH. Qed.

Lemma calmo_preparar : calmo (preparar w).
Proof.
  unfold preparar.
  apply calmo_bind; [apply calmo_carregar | intros df].
  apply calmo_bind; [apply calmo_resolver | intros date_col].
  apply calmo_bind; [apply calmo_normalizar | intros datas].
  apply calmo_bind; [apply calmo_limpar | intros y].
  apply calmo_bind; [apply calmo_treinar | intros results].
  apply calmo_bind; [apply calmo_prever | intros serie].
  apply calmo_processar.
Qed.

(** The script is the write section run on what came before it. *)
Lemma main_preparar st : main w st = Py.bind (preparar w) (gravar w) st.
Proof.
  unfold main, preparar, Py.bind.
  destruct (carregar w st) as [[df|?|?] s1]; [|done|done].
  destruct (resolver w (columns df) s1) as [[c|?|?] s2]; [|done|done].
  destruct (normalizar w df c s2) as [[datas|?|?] s3]; [|done|done].
  destruct (limpar df datas s3) as [[y|?|?] s4]; [|done|done].
  destruct (treinar w y s4) as [[results|?|?] s5]; [|done|done].
  destruct (prever results y s5) as [[serie|?|?] s6]; [|done|done].
  by destruct (processar serie s6) as [[ps|?|?] s7].
Qed.

End Stages.

Lemma toca_is_save e : toca_planilha e = false → is_save e = false.
Proof. by destruct e. Qed.

Lemma toca_is_set_cell e : toca_planilha e = false → is_set_cell e = false.
Proof. by destruct e. Qed.

Lemma calmo_sem_salvar evs :
  Forall (λ e, toca_planilha e = false) evs → sem_salvar evs.
Proof. intros H. eapply Forall_impl; [exact H | apply toca_is_save]. Qed.

Lemma conta_app f l1 l2 : conta f (l1 ++ l2) = (conta f l1 + conta f l2)%nat.
Proof. unfold conta. by rewrite List.filter_app, length_app. Qed.

Lemma conta_calmo evs :
  Forall (λ e, toca_planilha e = false) evs → conta is_set_cell evs = 0%nat.
Proof.
  unfold conta. induction 1 as [|e evs He _ IH]; [done|].
  simpl. by rewrite (toca_is_set_cell e He).
Qed.

Section Discipline.

Variable w : World.

Lemma disciplina_calmo (c : Script unit) st :
  calmo c → disciplina w st (c st).
Proof.
  intros Hc. destruct (Hc st) as (evs & Heq & Hq).
  exists evs. rewrite Heq. split; [done|]. left.
  split; [by apply calmo_sem_salvar | done].
Qed.

(** Work that leaves the workbook alone, put in front, changes nothing. *)
Lemma disciplina_bind {A} (c : Script A) (k : A → Script unit) :
  calmo c → (∀ a st, disciplina w st (k a st)) →
  ∀ st, disciplina w st (Py.bind c k st).
Proof.
  intros Hc Hk st. destruct (Hc st) as (evs0 & Heq & Hq).
  unfold Py.bind. destruct (c st) as [[a|n|e] st1]; simpl in Heq; subst st1.
  - destruct (Hk a (apos st evs0)) as (evs1 & Htr & Hcases).
    exists (evs0 ++ evs1). split.
    { rewrite Htr. simpl. by rewrite app_assoc. }
    destruct Hcases as [[Hns Hd]|(Hsu & Ho & Hl & Hcell)].
    + left. split; [|done].
      apply Forall_app. split; [by apply calmo_sem_salvar | done].
    + right. repeat split; try done.
      destruct Hsu as (pre & post & -> & Hpre & Hn & Hpost).
      exists (evs0 ++ pre), post. repeat split; try done.
      * by rewrite app_assoc.
      * apply Forall_app. split; [by apply calmo_sem_salvar | done].
      * by rewrite conta_app, conta_calmo.
  - exists evs0. split; [done|]. left.
    split; [by apply calmo_sem_salvar | done].
  - exists evs0. split; [done|]. left.
    split; [by apply calmo_sem_salvar | done].
Qed.

Lemma abrir_run st :
  abrir w st =
    (match load_error w (disk st) with
     | Some e => Raised e
     | None => Done (disk st)
     end, apos st [LoadWorkbook]).
Proof.
  unfold abrir, Py.bind, Py.get_disk, Py.emit. simpl.
  by destruct (load_error w (disk st)).
Qed.

Lemma salvar_run wb st :
  salvar w wb st =
    match save_error w wb with
    | Some (e, resto) => (Raised e, mkState (trace st ++ [Save]) resto)
    | None => (Done tt, mkState (trace st ++ [Save]) wb)
    end.
Proof.
  unfold salvar, Py.bind, Py.emit. simpl.
  by destruct (save_error w wb) as [[e resto]|].
Qed.

(** Lines 146-197 once the count check has passed, by what the libraries
    do. *)
Lemma gravar_unfold ps st :
  length ps = length linhas_alvo →
  gravar w ps st =
    match load_error w (disk st) with
    | Some e =>
        (Done tt,
         apos st [Print (EscrevendoPrevisoes aba_alvo); LoadWorkbook;
                  Print (ErroEscrever e); Print NaoForamSalvas])
    | None =>
        match escrever w 0 ps (com_aba (disk st))
                (apos st (Print (EscrevendoPrevisoes aba_alvo) :: LoadWorkbook
                          :: eventos_aba (disk st))) with
        | (Done wb', st2) =>
            match save_error w wb' with
            | Some (e, resto) =>
                (Done tt,
                 mkState (trace st2 ++ [Save; Print (ErroEscrever e);
                                        Print NaoForamSalvas]) resto)
            | None =>
                (Done tt,
                 mkState (trace st2 ++
                          [Save; Print (Sucesso (length ps) nome_arquivo)]) wb')
            end
        | (SysExit n, st2) => (SysExit n, st2)
        | (Raised e, st2) =>
            (Done tt, apos st2 [Print (ErroEscrever e); Print NaoForamSalvas])
        end
    end.
Proof.
  intros Hlen. unfold gravar. rewrite Hlen, Nat.eqb_refl. simpl.
  unfold Py.bind at 1, Py.print, Py.emit. simpl.
  unfold Py.try_except. unfold Py.bind at 1. rewrite abrir_run. simpl.
  destruct (load_error w (disk st)) as [e|].
  { unfold Py.bind, Py.print, Py.emit, apos. simpl. by rewrite <- !app_assoc. }
  unfold Py.bind at 1. rewrite selecionar_aba_run.
  change (apos (apos (mkState (trace st ++ [Print (EscrevendoPrevisoes aba_alvo)])
                        (disk st)) [LoadWorkbook]) (eventos_aba (disk st)))
    with (apos (apos (apos st [Print (EscrevendoPrevisoes aba_alvo)])
                  [LoadWorkbook]) (eventos_aba (disk st))).
  rewrite !apos_apos.
  change ([Print (EscrevendoPrevisoes aba_alvo)] ++
          [LoadWorkbook] ++ eventos_aba (disk st))
    with (Print (EscrevendoPrevisoes aba_alvo) :: LoadWorkbook
          :: eventos_aba (disk st)).
  unfold Py.bind at 1.
  destruct (escrever w 0 ps (com_aba (disk st))
              (apos st (Print (EscrevendoPrevisoes aba_alvo) :: LoadWorkbook
                        :: eventos_aba (disk st))))
    as [[wb'|n|e] st2].
  3: { unfold Py.bind, Py.print, Py.emit, apos. simpl. by rewrite <- !app_assoc. }
  2: { done. }
  - unfold Py.bind at 1. rewrite salvar_run.
    destruct (save_error w wb') as [[e resto]|].
    + unfold Py.bind, Py.print, Py.emit. simpl. by rewrite <- !app_assoc.
    + unfold Py.print, Py.emit. simpl. by rewrite <- !app_assoc.
Qed.

(** The write section when the workbook loads and every target cell takes
    its value: the save is reached, and its outcome decides what is on disk
    and what is printed. *)
Lemma gravar_completo ps st :
  length ps = length linhas_alvo →
  load_error w (disk st) = None →
  (∀ linha, linha ∈ linhas_alvo → cell_error w linha coluna_alvo = None) →
  gravar w ps st =
    match save_error w (planilha_escrita linhas_alvo ps (com_aba (disk st))) with
    | None =>
        (Done tt,
         mkState
           (trace st ++
            [Print (EscrevendoPrevisoes aba_alvo); LoadWorkbook] ++
            eventos_aba (disk st) ++ eventos_escrita linhas_alvo ps ++
            [Save; Print (Sucesso (length ps) nome_arquivo)])
           (planilha_escrita linhas_alvo ps (com_aba (disk st))))
    | Some (e, resto) =>
        (Done tt,
         mkState
           (trace st ++
            [Print (EscrevendoPrevisoes aba_alvo); LoadWorkbook] ++
            eventos_aba (disk st) ++ eventos_escrita linhas_alvo ps ++
            [Save; Print (ErroEscrever e); Print NaoForamSalvas])
           resto)
    end.
Proof.
  intros Hlen Hload Hcell.
  rewrite (gravar_unfold ps st Hlen), Hload.
  rewrite (escrever_ok w ps 0) by (done || (rewrite Hlen; simpl; lia)).
  change (drop 0 linhas_alvo) with linhas_alvo.
  destruct (save_error w (planilha_escrita linhas_alvo ps (com_aba (disk st))))
    as [[e resto]|]; f_equal; f_equal; simpl; by rewrite <- !app_assoc.
Qed.

(** The write loop, however it ends: it never saves and leaves the file
    alone; when it gets to its end, it has written one cell per forecast
    and none of those writes failed. *)
Lemma escrever_shape ps (i : nat) wb st :
  ∃ evs, (escrever w i ps wb st).2 = apos st evs ∧
    sem_salvar evs ∧
    ∀ wb', (escrever w i ps wb st).1 = Done wb' →
      conta is_set_cell evs = length ps ∧
      ∀ (j : nat) linha, (i ≤ j < i + length ps)%nat →
        linhas_alvo !! j = Some linha →
        cell_error w linha coluna_alvo = None.
Proof.
  revert i wb st. induction ps as [|p ps IH]; intros i wb st.
  - exists []. rewrite apos_nil. repeat split; try done.
    + constructor.
    + intros j linha Hj. simpl in Hj. lia.
  - rewrite escrever_cons.
    destruct (linhas_alvo !! i) as [l|] eqn:Hl.
    2: { exists []. rewrite apos_nil. repeat split; try done. constructor. }
    destruct (cell_error w l coluna_alvo) as [e|] eqn:He.
    + exists [SetCell aba_alvo l coluna_alvo (p_previsao p)].
      split; [done|]. split; [by repeat constructor | done].
    + destruct (IH (S i) (grava wb l (p_previsao p))
                  (apos st [SetCell aba_alvo l coluna_alvo (p_previsao p);
                            Print (ValorSalvo (p_previsao p) (p_data p) l)]))
        as (evs & Heq & Hns & Hdone).
      eexists. split; [by rewrite Heq, apos_apos|]. split.
      * apply Forall_app. split; [by repeat constructor | done].
      * intros wb' Hwb'. destruct (Hdone wb' Hwb') as [Hn Hcells].
        split.
        -- rewrite conta_app, Hn. done.
        -- intros j linha Hj Hlinha.
           destruct (decide (j = i)) as [->|Hne].
           ++ congruence.
           ++ apply (Hcells j); [simpl in Hj; lia | done].
Qed.

Lemma disciplina_gravar ps st : disciplina w st (gravar w ps st).
Proof.
  unfold gravar. revert st. apply disciplina_bind; [apply calmo_print|].
  intros _ st.
  destruct (negb (length ps =? length linhas_alvo)%nat) eqn:Hlen.
  { apply disciplina_calmo. calmo_tac. }
  apply negb_false_iff, Nat.eqb_eq in Hlen.
  unfold Py.try_except.
  unfold Py.bind at 1. rewrite abrir_run.
  destruct (load_error w (disk st)) as [e|] eqn:Hload.
  { eexists. split; [simpl; by rewrite <- !app_assoc|].
    left. split; [by repeat constructor | done]. }
  unfold Py.bind at 1. rewrite selecionar_aba_run, apos_apos.
  destruct (escrever_shape ps 0 (com_aba (disk st))
              (apos st ([LoadWorkbook] ++ eventos_aba (disk st))))
    as (evs & Heq & Hns & Hdone).
  assert (sem_salvar ([LoadWorkbook] ++ eventos_aba (disk st))) as Hns0.
  { apply Forall_app. split; [by repeat constructor|].
    unfold eventos_aba. destruct (disk st !! aba_alvo); by repeat constructor. }
  assert (conta is_set_cell ([LoadWorkbook] ++ eventos_aba (disk st)) = 0%nat)
    as Hn0.
  { unfold eventos_aba. by destruct (disk st !! aba_alvo). }
  unfold Py.bind at 1.
  destruct (escrever w 0 ps (com_aba (disk st))
              (apos st ([LoadWorkbook] ++ eventos_aba (disk st))))
    as [[wb'|n|e] st3]; simpl in Heq; subst st3.
  - destruct (Hdone wb' eq_refl) as [Hn Hcells].
    assert (∀ linha, linha ∈ linhas_alvo →
              cell_error w linha coluna_alvo = None) as Hall.
    { intros linha [j Hj]%list_elem_of_lookup. apply (Hcells j); [|done].
      apply lookup_lt_Some in Hj. lia. }
    assert (salvou_uma_vez
              ((([LoadWorkbook] ++ eventos_aba (disk st)) ++ evs) ++
               Save ::
               match save_error w wb' with
               | Some (e, _) => [Print (ErroEscrever e); Print NaoForamSalvas]
               | None => [Print (Sucesso (length ps) nome_arquivo)]
               end)) as Hsaved.
    { eexists _, _. split; [done|]. split.
      - apply Forall_app. split; [apply Hns0 | apply Hns].
      - split; [by rewrite conta_app, Hn0, Hn|].
        destruct (save_error w wb') as [[e ?]|]; by repeat constructor. }
    unfold Py.bind at 1. rewrite salvar_run.
    destruct (save_error w wb') as [[e resto]|] eqn:Hsave.
    + eexists. split; [|right; split; [apply Hsaved | done]].
      simpl. by rewrite <- !app_assoc.
    + eexists. split; [|right; split; [apply Hsaved | done]].
      simpl. by rewrite <- !app_assoc.
  - eexists. split; [by rewrite apos_apos|].
    left. split; [|done]. apply Forall_app. by split.
  - eexists. split; [simpl; by rewrite <- !app_assoc|].
    left. split; [|done].
    apply Forall_app. split; [apply Hns0|].
    apply Forall_app. split; [apply Hns | by repeat constructor].
Qed.

End Discipline.

(** C9. Whatever the libraries do, the script either never calls
    [workbook.save] and leaves the file on disk as it found it, or calls it
    exactly once: after the whole write loop, every cell write staged, the
    workbook loaded and every target cell written without failure, and with
    no further operation on the workbook after it.  So a failure anywhere
    before the save (an exit, an exception, a failed load or cell write)
    means no save and an untouched file.  And the save does happen when
    nothing fails before it: once the stages before the write section have
    returned as many forecasts as there are target rows, the workbook loads
    and every target cell takes its value, the file is still as it was when
    the write section begins, [workbook.save] is called, once, after the
    last cell of the loop was set and as the last operation on the
    workbook, and it is handed the loaded workbook with all the forecasts
    written into it; the file then holds that workbook, or, should the save
    itself fail, whatever the failed save left. *)
Theorem single_save_atomicity (w : World) (st : State) :
  disciplina w st (main w st) ∧
  ∀ ps st1,
    preparar w st = (Done ps, st1) →
    length ps = length linhas_alvo →
    load_error w (disk st) = None →
    (∀ linha, linha ∈ linhas_alvo → cell_error w linha coluna_alvo = None) →
    disk st1 = disk st ∧
    main w st =
      match save_error w (planilha_escrita linhas_alvo ps (com_aba (disk st)))
      with
      | None =>
          (Done tt,
           mkState
             (trace st1 ++
              [Print (EscrevendoPrevisoes aba_alvo); LoadWorkbook] ++
              eventos_aba (disk st) ++ eventos_escrita linhas_alvo ps ++
              [Save; Print (Sucesso (length ps) nome_arquivo)])
             (planilha_escrita linhas_alvo ps (com_aba (disk st))))
      | Some (e, resto) =>
          (Done tt,
           mkState
             (trace st1 ++
              [Print (EscrevendoPrevisoes aba_alvo); LoadWorkbook] ++
              eventos_aba (disk st) ++ eventos_escrita linhas_alvo ps ++
              [Save; Print (ErroEscrever e); Print NaoForamSalvas])
             resto)
      end.
Proof.
  split.
  - unfold main. revert st.
    apply disciplina_bind; [apply calmo_carregar | intros df].
    apply disciplina_bind; [apply calmo_resolver | intros date_col].
    apply disciplina_bind; [apply calmo_normalizar | intros datas].
    apply disciplina_bind; [apply calmo_limpar | intros y].
    apply disciplina_bind; [apply calmo_treinar | intros results].
    apply disciplina_bind; [apply calmo_prever | intros serie].
    apply disciplina_bind; [apply calmo_processar | intros ps].
    intros st. apply disciplina_gravar.
  - intros ps st1 Hprep Hlen Hload Hcell.
    assert (disk st1 = disk st) as Hdisk.
    { destruct (calmo_preparar w st) as (evs & Heq & _).
      rewrite Hprep in Heq. simpl in Heq. by rewrite Heq. }
    split; [done|].
    rewrite main_preparar. unfold Py.bind. rewrite Hprep.
    rewrite <- Hdisk in Hload |- *.
    by apply gravar_completo.
Qed.

(** * The script at work *)

Import Exemplo.

Lemma two_tier_date_parsing_witness :
  (∃ ds, normalizar W tabela "Data" (inicio ∅) = (Done ds, inicio ∅) ∧
         Forall2 (λ x d, strptime_mY W x = inr d)
           [Text "07/2025"; Text "06/2025"; Text "05/2025"; Text "08/2025"] ds) ∧
  normalizar W tabela_ilegivel "Data" (inicio ∅) =
    (SysExit 0,
     apos (inicio ∅) [Print (ErroConverter "Data"); Print VerifiqueFormato]) ∧
  normalizar W tabela_suja "Mes ref" (inicio ∅) =
    (Done [Some (mkTs 2025 7 15); NaT; Some (mkTs 2025 8 1)],
     apos (inicio ∅) [Print (AvisoParserFlexivel "Mes ref")]).
Proof.
  split; [|split].
  - apply (two_tier_date_parsing W tabela "Data" _ (inicio ∅) eq_refl).
    repeat constructor; eexists; reflexivity.
  - apply (two_tier_date_parsing W tabela_ilegivel "Data" _ (inicio ∅) eq_refl).
    + intros H. apply Forall_cons in H as [[d Hd] _]. discriminate Hd.
    + repeat constructor.
  - apply (two_tier_date_parsing W tabela_suja "Mes ref" _ (inicio ∅) eq_refl).
    + intros H. apply Forall_cons in H as [[d Hd] _]. discriminate Hd.
    + apply Exists_cons_hd. discriminate.
Defined.

Lemma single_save_atomicity_witness :
  conta is_save (trace (main W (inicio ∅)).2) = 1%nat ∧
  last (trace (main W (inicio ∅)).2) =
    Some (Print (Sucesso 4 nome_arquivo)) ∧
  (λ linha, celula (disk (main W (inicio ∅)).2) "graficos" linha 6)
    <$> [11; 12; 13; 14] =
    [Some (Int 120); Some (Int 122); Some (Int 130); Some (Int 140)].
Proof.
  destruct (proj2 (single_save_atomicity W (inicio ∅))
              (arredondar <$> take 4 medias) (preparar W (inicio ∅)).2)
    as [_ Hrun].
  - by vm_compute.
  - reflexivity.
  - reflexivity.
  - intros linha _. reflexivity.
  - rewrite Hrun. clear Hrun. vm_compute. repeat split; reflexivity.
Defined.

Lemma fallback_outcome_policy_witness :
  normalizar W tabela_ilegivel "Data" (inicio ∅) =
    (SysExit 0,
     apos (inicio ∅) [Print (ErroConverter "Data"); Print VerifiqueFormato]) ∧
  normalizar W tabela_suja "Mes ref" (inicio ∅) =
    (Done [Some (mkTs 2025 7 15); NaT; Some (mkTs 2025 8 1)],
     apos (inicio ∅) [Print (AvisoParserFlexivel "Mes ref")]).
Proof.
  split.
  - apply (fallback_outcome_policy W tabela_ilegivel "Data" _ (inicio ∅) eq_refl).
    + intros H. apply Forall_cons in H as [[d Hd] _]. discriminate Hd.
    + repeat constructor.
  - apply (fallback_outcome_policy W tabela_suja "Mes ref" _ (inicio ∅) eq_refl).
    + intros H. apply Forall_cons in H as [[d Hd] _]. discriminate Hd.
    + apply Exists_cons_hd. discriminate.
Defined.

Lemma ultima_agosto : ultima (fst <$> ate_agosto) (mkTs 2025 8 1).
Proof.
  split.
  - apply list_elem_of_further, list_elem_of_here.
  - intros u Hu. unfold ate_agosto in Hu. simpl in Hu.
    rewrite !elem_of_cons, elem_of_nil in Hu.
    destruct Hu as [[= ->]|[[= ->]|[]]]; unfold ts_le; simpl; lia.
Defined.

Lemma ultima_dezembro : ultima (fst <$> ate_dezembro) (mkTs 2025 12 1).
Proof.
  split.
  - apply list_elem_of_further, list_elem_of_here.
  - intros u Hu. unfold ate_dezembro in Hu. simpl in Hu.
    rewrite !elem_of_cons, elem_of_nil in Hu.
    destruct Hu as [[= ->]|[[= ->]|[]]]; unfold ts_le; simpl; lia.
Defined.

Lemma forecast_count_derivation_witness :
  prever resultados ate_agosto (inicio ∅) =
    (Done (take 4 medias),
     apos (inicio ∅) [Print (CalculandoPrevisoes (Steps 4) 2025);
                      GetForecast (Steps 4)]) ∧
  prever resultados ate_dezembro (inicio ∅) =
    (SysExit 0, apos (inicio ∅) [Print (DadosCompletos 2025)]).
Proof.
  split.
  - apply (forecast_count_derivation resultados ate_agosto (mkTs 2025 8 1)
             (inicio ∅) ultima_agosto).
    simpl. lia.
  - apply (forecast_count_derivation resultados ate_dezembro (mkTs 2025 12 1)
             (inicio ∅) ultima_dezembro).
    simpl. lia.
Defined.

Lemma consistency_check_precedes_writing_witness :
  (ps <- processar (take 3 medias) ;; gravar W ps) (inicio ∅) =
    (SysExit 0,
     apos (inicio ∅)
       [Print (PrevisaoPara (mkTs 2025 9 1) 120);
        Print (PrevisaoPara (mkTs 2025 10 1) 122);
        Print (PrevisaoPara (mkTs 2025 11 1) 130);
        Print (EscrevendoPrevisoes "graficos");
        Print (ErroDivergencia 3 4);
        Print AjusteLinhasAlvo]).
Proof.
  apply (consistency_check_precedes_writing W (take 3 medias) (inicio ∅)).
  simpl. lia.
Defined.

Lemma writer_placement_witness :
  ∃ st',
    (ps <- processar (take 4 medias) ;; gravar W ps) (inicio ∅) = (Done tt, st') ∧
    celula (disk st') "graficos" 11 6 = Some (Int 120) ∧
    celula (disk st') "graficos" 12 6 = Some (Int 122) ∧
    celula (disk st') "graficos" 13 6 = Some (Int 130) ∧
    celula (disk st') "graficos" 14 6 = Some (Int 140) ∧
    celula (disk st') "graficos" 15 6 = None.
Proof.
  destruct (writer_placement W (take 4 medias) (inicio ∅))
    as (st' & Hrun & _ & Hcells & Hrest).
  - reflexivity.
  - reflexivity.
  - intros linha _. reflexivity.
  - intros wb. reflexivity.
  - exists st'. split; [exact Hrun|].
    split; [apply (Hcells 0%nat 11 (mkTs 2025 9 1) (1205 # 10) eq_refl eq_refl)|].
    split; [apply (Hcells 1%nat 12 (mkTs 2025 10 1) (1215 # 10) eq_refl eq_refl)|].
    split; [apply (Hcells 2%nat 13 (mkTs 2025 11 1) (1304 # 10) eq_refl eq_refl)|].
    split; [apply (Hcells 3%nat 14 (mkTs 2025 12 1) (1396 # 10) eq_refl eq_refl)|].
    rewrite (Hrest "graficos" 15 6); [reflexivity|].
    intros (_ & _ & Hin). unfold linhas_alvo in Hin.
    rewrite !elem_of_cons, elem_of_nil in Hin. lia.
Defined.


Lemma resolver_no_match_raises_NameError_witness :
  main (mundo (inr tabela_sem_data) []) (inicio ∅) =
    (Raised (NameError "date_col"),
     apos (inicio ∅)
       [ReadExcel "dados_para_analise";
        Print (ColunasDetectadas "dados_para_analise" ["QNT"; "Valor"])]).
Proof.
  apply (resolver_no_match_raises_NameError
           (mundo (inr tabela_sem_data) []) (inicio ∅) tabela_sem_data).
  - reflexivity.
  - cbn. rewrite !elem_of_cons, elem_of_nil. intros [H|[H|[]]]; discriminate H.
  - cbn. intros c Hc Hs. apply heuristica_spec in Hs.
    rewrite !elem_of_cons, elem_of_nil in Hc.
    destruct Hc as [->|[->|[]]]; discriminate Hs.
Defined.

Example detectar_prefere_Data :
  detectar W ["Mes"; "Data"; "date"] = Some "Data".
Proof. reflexivity. Qed.

Example detectar_primeira_sugestao :
  detectar W ["QNT"; "Mês Ref"; "Data de corte"] = Some "Mês Ref".
Proof. reflexivity. Qed.

(** Sorted by date, the row without quantity gone. *)
Example serie_de_tabela :
  (df <- carregar W ;;
   date_col <- resolver W (columns df) ;;
   datas <- normalizar W df date_col ;;
   limpar df datas) (inicio ∅) =
    (Done [ (Some (mkTs 2025 6 1), Int 100);
            (Some (mkTs 2025 7 1), Int 110);
            (Some (mkTs 2025 8 1), Int 120) ],
     apos (inicio ∅)
       [ReadExcel "dados_para_analise";
        Print (ColunasDetectadas "dados_para_analise" ["Data"; "QNT"])]).
Proof. reflexivity. Qed.

(** Data up to August: four forecasts, in F11 to F14 of "graficos". *)
Example main_ate_agosto :
  (main W (inicio ∅)).1 = Done tt ∧
  (λ linha, celula (disk (main W (inicio ∅)).2) "graficos" linha 6)
    <$> [11; 12; 13; 14] =
    [Some (Int 120); Some (Int 122); Some (Int 130); Some (Int 140)] ∧
  conta is_save (trace (main W (inicio ∅)).2) = 1%nat.
Proof. by vm_compute. Qed.

(** F13 is read-only: two cells were set in memory, nothing was saved. *)
Example main_celula_somente_leitura :
  let r := main (mundo (inr tabela) [13]) (inicio ∅) in
  r.1 = Done tt ∧ disk r.2 = ∅ ∧
  conta is_set_cell (trace r.2) = 3%nat ∧ conta is_save (trace r.2) = 0%nat ∧
  Print NaoForamSalvas ∈ trace r.2.
Proof.
  repeat split; try by vm_compute.
  apply list_elem_of_In. vm_compute. tauto.
Qed.

(** * Further properties of the script *)

(** ** Loading and the date column *)

Lemma index_of_None c cols : index_of c cols = None ↔ c ∉ cols.
Proof.
  induction cols as [|x cols IH]; simpl.
  - split; [intros _ H; by apply elem_of_nil in H | done].
  - rewrite not_elem_of_cons. destruct (decide (x = c)) as [->|Hne].
    + split; [done | intros [H _]; by destruct H].
    + destruct (index_of c cols); simpl.
      * split; [done|]. intros [_ H]. by apply IH in H.
      * split; [|done]. intros _. split; [congruence | by apply IH].
Qed.

Lemma index_of_Some c cols i : index_of c cols = Some i → cols !! i = Some c.
Proof.
  revert i. induction cols as [|x cols IH]; intros i; simpl; [done|].
  destruct (decide (x = c)) as [->|Hne].
  - by intros [= <-].
  - destruct (index_of c cols) as [j|]; simpl; [|done].
    intros [= <-]. by apply IH.
Qed.

Lemma index_of_first c pre rest :
  c ∉ pre → index_of c (pre ++ c :: rest) = Some (length pre).
Proof.
  induction pre as [|x pre IH]; intros Hpre; simpl.
  - by rewrite decide_True.
  - apply not_elem_of_cons in Hpre as [Hne Hpre].
    rewrite decide_False by done. by rewrite IH.
Qed.

Lemma drop_after {A} (pre : list A) x rest :
  drop (S (length pre)) (pre ++ x :: rest) = rest.
Proof. induction pre as [|y pre IH]; [done | apply IH]. Qed.

(** A label borne by one column only selects that column. *)
Lemma coluna_unica df c pre post :
  columns df = pre ++ c :: post → c ∉ pre → c ∉ post →
  coluna df c = inr ((λ r, get_cell r (length pre)) <$> rows df).
Proof.
  intros Hcols Hpre Hpost. unfold coluna.
  rewrite Hcols, (index_of_first c pre post Hpre).
  rewrite drop_after.
  by rewrite (proj2 (index_of_None c post) Hpost).
Qed.

(** A label borne by two columns selects a frame, which is no column of
    dates. *)
Lemma coluna_repetida df c pre mid post :
  columns df = pre ++ c :: mid ++ c :: post → c ∉ pre →
  coluna df c =
    inl (LibraryError "ValueError: cannot assemble with duplicate keys").
Proof.
  intros Hcols Hpre. unfold coluna.
  rewrite Hcols, (index_of_first c pre _ Hpre).
  rewrite drop_after.
  destruct (index_of c (mid ++ c :: post)) as [j|] eqn:Hj; [done|].
  apply index_of_None in Hj. destruct Hj.
  apply elem_of_app. right. apply list_elem_of_here.
Qed.

Lemma varrer_Some w cols c :
  varrer w cols = Some c → c ∈ cols ∧ heuristica w c = true.
Proof.
  induction cols as [|x cols IH]; simpl; [done|].
  destruct (heuristica w x) eqn:Hx.
  - intros [= <-]. split; [apply list_elem_of_here | done].
  - intros H. destruct (IH H). split; [by apply list_elem_of_further | done].
Qed.

Lemma detectar_elem w cols c : detectar w cols = Some c → c ∈ cols.
Proof.
  unfold detectar. case_bool_decide as HD.
  - by intros [= <-].
  - by intros [? _]%varrer_Some.
Qed.

Lemma heuristica_vazio w :
  str_lower w EmptyString = EmptyString → heuristica w EmptyString = false.
Proof. intros H. unfold heuristica. by rewrite H. Qed.

(** X1. The sheet cannot be read: the script prints the two lines of the
    [except] branch and leaves through [sys.exit()]; nothing of the rest of
    the script runs. *)
Theorem read_failure_stops_the_run (w : World) (st : State) (e : exn) :
  read_excel w (disk st) aba_dados_limpos = inl e →
  main w st =
    (SysExit 0,
     apos st [ReadExcel aba_dados_limpos;
              Print (ErroLerAba aba_dados_limpos e);
              Print VerifiqueArquivoAba]).
Proof.
  intros Hread. unfold main. unfold Py.bind at 1.
  unfold carregar, Py.try_except, Py.bind, Py.get_disk, Py.emit, Py.print,
    Py.emit, Py.lift. simpl. rewrite Hread. simpl.
  unfold apos. simpl. by rewrite <- !app_assoc.
Qed.

Lemma read_failure_stops_the_run_witness :
  main (mundo (inl (LibraryError "FileNotFoundError")) []) (inicio ∅) =
    (SysExit 0,
     apos (inicio ∅)
       [ReadExcel "dados_para_analise";
        Print (ErroLerAba "dados_para_analise" (LibraryError "FileNotFoundError"));
        Print VerifiqueArquivoAba]).
Proof.
  apply (read_failure_stops_the_run
           (mundo (inl (LibraryError "FileNotFoundError")) []) (inicio ∅)).
  reflexivity.
Defined.

(** X2. With an empty string lowercasing to itself, the check of line 45
    never fires: the resolver either goes on with a non-empty label that is
    one of the columns, or dies of [NameError]; it never prints the "no date
    column" diagnostic and never calls [sys.exit()]. *)
Theorem resolver_never_exits (w : World) (cols : list string) (st : State) :
  str_lower w EmptyString = EmptyString →
  (∃ c, c ∈ cols ∧ c ≠ EmptyString ∧ resolver w cols st = (Done c, st)) ∨
  resolver w cols st = (Raised (NameError "date_col"), st).
Proof.
  intros Hlow. unfold resolver.
  destruct (detectar w cols) as [c|] eqn:Hd; [left | by right].
  assert (c ≠ EmptyString) as Hne.
  { intros ->. unfold detectar in Hd. case_bool_decide; [done|].
    apply varrer_Some in Hd as [_ Hh].
    by rewrite heuristica_vazio in Hh. }
  exists c. split; [by eapply detectar_elem|]. split; [done|].
  by destruct c.
Qed.

Lemma resolver_never_exits_witness :
  (∃ c, c ∈ ["QNT"; "Mes ref"] ∧ c ≠ EmptyString ∧
        resolver W ["QNT"; "Mes ref"] (inicio ∅) = (Done c, inicio ∅)) ∨
  resolver W ["QNT"; "Mes ref"] (inicio ∅) =
    (Raised (NameError "date_col"), inicio ∅).
Proof.
  apply (resolver_never_exits W ["QNT"; "Mes ref"] (inicio ∅)).
  reflexivity.
Defined.

(** What lines 52-63 come to, by the outcome of the strict parse. *)
Lemma normalizar_cases w df c col st :
  coluna df c = inr col →
  normalizar w df c st =
    match to_datetime_strict w col with
    | inr ds => (Done ds, st)
    | inl _ =>
        if forallb isnat (to_datetime_coerce w col)
        then (SysExit 0,
              apos st [Print (ErroConverter c); Print VerifiqueFormato])
        else (Done (to_datetime_coerce w col),
              apos st [Print (AvisoParserFlexivel c)])
    end.
Proof.
  intros Hcol. unfold normalizar, Py.try_except, Py.bind, Py.lift.
  rewrite Hcol. simpl.
  destruct (to_datetime_strict w col) as [e|ds]; simpl; [|done].
  destruct (forallb isnat (to_datetime_coerce w col)); simpl; [|done].
  unfold apos. by rewrite <- app_assoc.
Qed.

(** X3. The column the resolver hands on is one of the labels of the
    frame.  Borne by one column only, it can always be read: the date stage
    never lets an exception out (a strict parse that fails is absorbed by
    the fallback), and the dates it returns are one per row.  Borne by two
    columns (two headers that strip to the same text), [df[date_col]] is a
    frame: [pd.to_datetime] raises in the [try], raises again in the
    handler, and the script dies of that [ValueError] with nothing
    printed. *)
Theorem resolved_column_parses_or_exits
    (w : World) (df : DataFrame) (c : string) (st st' : State) :
  resolver w (columns df) st = (Done c, st') →
  c ∈ columns df ∧
  (∀ pre post,
     columns df = pre ++ c :: post → c ∉ pre → c ∉ post →
     (∀ e, (normalizar w df c st').1 ≠ Raised e) ∧
     (∀ datas, (normalizar w df c st').1 = Done datas →
               length datas = length (rows df))) ∧
  (∀ pre mid post,
     columns df = pre ++ c :: mid ++ c :: post → c ∉ pre →
     normalizar w df c st' =
       (Raised (LibraryError "ValueError: cannot assemble with duplicate keys"),
        st')).
Proof.
  intros Hres. split; [|split].
  - unfold resolver in Hres.
    destruct (detectar w (columns df)) as [c'|] eqn:Hd; [|done].
    destruct (falsy c'); [done|]. injection Hres as -> _.
    by eapply detectar_elem.
  - intros pre post Hcols Hpre Hpost.
    pose proof (coluna_unica df c pre post Hcols Hpre Hpost) as Hcol.
    rewrite (normalizar_cases w df c _ st' Hcol).
    set (col := (λ r, get_cell r (length pre)) <$> rows df).
    assert (length col = length (rows df)) as Hlen
      by (unfold col; by rewrite length_fmap).
    destruct (to_datetime_strict w col) as [e|ds] eqn:Hs.
    + destruct (forallb isnat (to_datetime_coerce w col)); simpl.
      * split; [done | done].
      * split; [done|]. intros datas [= <-].
        unfold to_datetime_coerce. by rewrite length_fmap.
    + simpl. split; [done|]. intros datas [= <-].
      apply to_datetime_strict_inr, Forall2_length in Hs. congruence.
  - intros pre mid post Hcols Hpre.
    unfold normalizar, Py.try_except, Py.bind, Py.lift.
    by rewrite (coluna_repetida df c pre mid post Hcols Hpre).
Qed.

Lemma resolved_column_parses_or_exits_witness :
  ((∀ e, (normalizar W tabela_suja "Mes ref" (inicio ∅)).1 ≠ Raised e) ∧
   (∀ datas, (normalizar W tabela_suja "Mes ref" (inicio ∅)).1 = Done datas →
             length datas = length (rows tabela_suja))) ∧
  normalizar W
    (mkDf ["Data"; "Data"; "QNT"] [[Text "07/2025"; Text "08/2025"; Int 110]])
    "Data" (inicio ∅) =
    (Raised (LibraryError "ValueError: cannot assemble with duplicate keys"),
     inicio ∅).
Proof.
  split.
  - apply (proj1 (proj2 (resolved_column_parses_or_exits W tabela_suja
                           "Mes ref" (inicio ∅) (inicio ∅) eq_refl))
             [] ["QNT"] eq_refl).
    + apply not_elem_of_nil.
    + rewrite elem_of_cons, elem_of_nil. intros [H|[]]. discriminate H.
  - apply (proj2 (proj2 (resolved_column_parses_or_exits W
                           (mkDf ["Data"; "Data"; "QNT"]
                              [[Text "07/2025"; Text "08/2025"; Int 110]])
                           "Data" (inicio ∅) (inicio ∅) eq_refl))
             [] [] ["QNT"] eq_refl).
    apply not_elem_of_nil.
Defined.

(** ** The series *)

(** X4. The script has no guard for the quantity column.  On a sheet that
    reads fine and has no column labelled ["QNT"] once the labels are
    stripped, the run ends as the date stage ends: when that stage returns
    the dates, line 67 raises [KeyError] and no handler is around it, so the
    script dies of it, having printed nothing more; when the date stage
    exits or raises, that is how the script ends, and line 67 is not
    reached. *)
Theorem missing_QNT_raises_KeyError
    (w : World) (st : State) (df : DataFrame) (c : string) (st1 : State) :
  read_excel w (disk st) aba_dados_limpos = inr df →
  "QNT" ∉ (str_strip w <$> columns df) →
  resolver w (str_strip w <$> columns df)
    (apos st [ReadExcel aba_dados_limpos;
              Print (ColunasDetectadas aba_dados_limpos
                       (str_strip w <$> columns df))]) = (Done c, st1) →
  main w st =
    match normalizar w (mkDf (str_strip w <$> columns df) (rows df)) c st1 with
    | (Done _, st2) => (Raised (KeyError "QNT"), st2)
    | (SysExit n, st2) => (SysExit n, st2)
    | (Raised e, st2) => (Raised e, st2)
    end.
Proof.
  intros Hread Hno Hres.
  unfold main. unfold Py.bind at 1. rewrite (carregar_ok w st df Hread).
  unfold Py.bind at 1. cbn [columns]. rewrite Hres.
  unfold Py.bind at 1.
  destruct (normalizar w (mkDf (str_strip w <$> columns df) (rows df)) c st1)
    as [[datas|n|e] st2]; [|done|done].
  unfold Py.bind at 1. unfold limpar. cbn [columns].
  by rewrite (proj2 (index_of_None "QNT" _) Hno).
Qed.

Lemma missing_QNT_raises_KeyError_witness :
  main (mundo (inr (mkDf ["Data"; "Valor"] [[Text "08/2025"; Int 120]])) [])
    (inicio ∅) =
    (Raised (KeyError "QNT"),
     apos (inicio ∅)
       [ReadExcel "dados_para_analise";
        Print (ColunasDetectadas "dados_para_analise" ["Data"; "Valor"])]).
Proof.
  etrans.
  { apply (missing_QNT_raises_KeyError
             (mundo (inr (mkDf ["Data"; "Valor"] [[Text "08/2025"; Int 120]])) [])
             (inicio ∅) (mkDf ["Data"; "Valor"] [[Text "08/2025"; Int 120]])
             "Data"
             (apos (inicio ∅)
                [ReadExcel "dados_para_analise";
                 Print (ColunasDetectadas "dados_para_analise"
                          ["Data"; "Valor"])])).
    - reflexivity.
    - cbn. rewrite !elem_of_cons, elem_of_nil. intros [H|[H|[]]]; discriminate H.
    - reflexivity. }
  reflexivity.
Defined.




(** ** How many forecasts *)

Lemma index_max_undated l : (∀ u, Some u ∉ l) → index_max l = None.
Proof.
  induction l as [|[t|] l IH]; intros H; simpl; [done| |].
  - destruct (H t). apply list_elem_of_here.
  - apply IH. intros u Hu. apply (H u). by apply list_elem_of_further.
Qed.

(** Lines 110-126, by the latest date of the index. *)
Lemma prever_cases results y st :
  prever results y st =
    match index_max (fst <$> y) with
    | Some t =>
        if bool_decide (12 - month t ≤ 0)
        then (SysExit 0, apos st [Print (DadosCompletos ano_para_prever)])
        else Py.lift (get_forecast results (Steps (12 - month t)))
               (apos st [Print (CalculandoPrevisoes (Steps (12 - month t))
                                  ano_para_prever);
                         GetForecast (Steps (12 - month t))])
    | None =>
        Py.lift (get_forecast results StepsNaN)
          (apos st [Print (CalculandoPrevisoes StepsNaN ano_para_prever);
                    GetForecast StepsNaN])
    end.
Proof.
  unfold prever. destruct (index_max (fst <$> y)) as [t|]; simpl.
  - unfold mes_final_desejado. case_bool_decide; [done|].
    unfold Py.bind, Py.print, Py.emit, apos. simpl. by rewrite <- app_assoc.
  - unfold Py.bind, Py.print, Py.emit, apos. simpl. by rewrite <- app_assoc.
Qed.

Lemma ultima_perm l l' t : l ≡ₚ l' → ultima l t → ultima l' t.
Proof.
  intros Hp [Hin Hmax]. split.
  - by rewrite <- Hp.
  - intros u Hu. apply Hmax. by rewrite Hp.
Qed.

(** X6. Rows without a quantity do not count as observed, whatever their
    date: the number of forecasts is derived from the latest date among the
    rows that have one. *)
Theorem forecast_count_ignores_rows_without_quantity
    (i : nat) (l : list (datetime * list cell)) (t : Timestamp) :
  ultima (fst <$> filter (tem_qnt i) l) t →
  index_max (fst <$> serie_limpa i l) = Some t ∧
  num_previsoes (index_max (fst <$> serie_limpa i l)) = Steps (12 - month t).
Proof.
  intros Hult.
  assert (index_max (fst <$> serie_limpa i l) = Some t) as Hmax.
  { apply index_max_ultima. eapply ultima_perm; [|exact Hult].
    rewrite serie_limpa_perm. unfold serie_qnt.
    by rewrite <- list_fmap_compose. }
  split; [done|]. by rewrite Hmax.
Qed.

Lemma forecast_count_ignores_rows_without_quantity_witness :
  index_max (fst <$> serie_limpa 1
               [ (Some (mkTs 2025 12 1), [Text "12/2025"; Null]);
                 (Some (mkTs 2025 8 1), [Text "08/2025"; Int 120]);
                 (Some (mkTs 2025 7 1), [Text "07/2025"; Int 110]) ]) =
    Some (mkTs 2025 8 1) ∧
  num_previsoes
    (index_max (fst <$> serie_limpa 1
                  [ (Some (mkTs 2025 12 1), [Text "12/2025"; Null]);
                    (Some (mkTs 2025 8 1), [Text "08/2025"; Int 120]);
                    (Some (mkTs 2025 7 1), [Text "07/2025"; Int 110]) ])) =
    Steps (12 - 8).
Proof.
  apply (forecast_count_ignores_rows_without_quantity 1 _ (mkTs 2025 8 1)).
  split.
  - apply list_elem_of_here.
  - intros u Hu.
    change (Some u ∈ [Some (mkTs 2025 8 1); Some (mkTs 2025 7 1)]) in Hu.
    rewrite !elem_of_cons, elem_of_nil in Hu.
    destruct Hu as [[= ->]|[[= ->]|[]]]; unfold ts_le; simpl; lia.
Defined.

(** X7. A series without a single dated entry (an empty one, or all NaT):
    the month of the latest date is NaN, the test [num_previsoes <= 0] is
    false, and the script, instead of stopping, asks the model for NaN
    steps. *)
Theorem undated_series_requests_NaN_steps
    (results : Results) (y : list (datetime * cell)) (st : State) :
  (∀ u, Some u ∉ (fst <$> y)) →
  prever results y st =
    Py.lift (get_forecast results StepsNaN)
      (apos st [Print (CalculandoPrevisoes StepsNaN ano_para_prever);
                GetForecast StepsNaN]).
Proof.
  intros H. by rewrite prever_cases, (index_max_undated _ H).
Qed.

Lemma undated_series_requests_NaN_steps_witness :
  prever resultados [(NaT, Int 100)] (inicio ∅) =
    (Raised (LibraryError "ValueError: steps"),
     apos (inicio ∅) [Print (CalculandoPrevisoes StepsNaN 2025);
                      GetForecast StepsNaN]).
Proof.
  apply (undated_series_requests_NaN_steps resultados [(NaT, Int 100)]
           (inicio ∅)).
  intros u Hu. cbn in Hu. rewrite elem_of_cons, elem_of_nil in Hu.
  destruct Hu as [Hu|[]]. discriminate Hu.
Defined.

(** X8. Only the month of the latest date matters, not its year: two series
    that end in the same month of different years lead to the same request
    and the same messages. *)
Theorem forecast_count_ignores_the_year
    (results : Results) (y1 y2 : list (datetime * cell))
    (t1 t2 : Timestamp) (st : State) :
  ultima (fst <$> y1) t1 → ultima (fst <$> y2) t2 →
  month t1 = month t2 →
  prever results y1 st = prever results y2 st.
Proof.
  intros H1%index_max_ultima H2%index_max_ultima Hm.
  by rewrite !prever_cases, H1, H2, Hm.
Qed.

Lemma forecast_count_ignores_the_year_witness :
  prever resultados ate_agosto (inicio ∅) =
  prever resultados [(Some (mkTs 2031 8 1), Int 7)] (inicio ∅).
Proof.
  apply (forecast_count_ignores_the_year resultados ate_agosto
           [(Some (mkTs 2031 8 1), Int 7)] (mkTs 2025 8 1) (mkTs 2031 8 1)
           (inicio ∅) ultima_agosto).
  - split.
    + apply list_elem_of_here.
    + intros u Hu. cbn in Hu. rewrite elem_of_cons, elem_of_nil in Hu.
      destruct Hu as [[= ->]|[]]. unfold ts_le; simpl; lia.
  - reflexivity.
Defined.

(** X9. With a model that returns as many forecasts as it is asked for, the
    four hard-coded target rows let only data ending in August through:
    for any other month before December the script requests [12 - m]
    forecasts, prints them, and then stops at the count check, the workbook
    untouched. *)
Theorem only_august_passes_the_count_check
    (w : World) (results : Results) (y : list (datetime * cell))
    (t : Timestamp) (serie : list (Timestamp * Q)) (st : State) :
  ultima (fst <$> y) t →
  0 < 12 - month t → month t ≠ 8 →
  get_forecast results (Steps (12 - month t)) = inr serie →
  length serie = Z.to_nat (12 - month t) →
  (previsoes_series <- prever results y ;;
   previsoes_finais <- processar previsoes_series ;;
   gravar w previsoes_finais) st =
    (SysExit 0,
     apos st
       ([Print (CalculandoPrevisoes (Steps (12 - month t)) ano_para_prever);
         GetForecast (Steps (12 - month t))] ++
        (anuncio <$> serie) ++
        [Print (EscrevendoPrevisoes aba_alvo);
         Print (ErroDivergencia (length serie) (length linhas_alvo));
         Print AjusteLinhasAlvo])).
Proof.
  intros Hult%index_max_ultima Hpos Hne Hget Hlen.
  unfold Py.bind at 1. rewrite prever_cases, Hult.
  rewrite bool_decide_eq_false_2 by lia. rewrite Hget. simpl.
  unfold Py.bind at 1. rewrite processar_run.
  unfold gravar. rewrite length_fmap.
  assert ((length serie =? length linhas_alvo)%nat = false) as ->.
  { apply Nat.eqb_neq. rewrite Hlen. simpl. lia. }
  simpl. unfold Py.bind, Py.print, Py.emit, Py.sys_exit, apos. simpl.
  by rewrite <- !app_assoc.
Qed.

Lemma only_august_passes_the_count_check_witness :
  (previsoes_series <-
     prever (mkResults (λ _, inr (take 2 medias)))
       [(Some (mkTs 2025 10 1), Int 90)] ;;
   previsoes_finais <- processar previsoes_series ;;
   gravar W previsoes_finais) (inicio ∅) =
    (SysExit 0,
     apos (inicio ∅)
       [Print (CalculandoPrevisoes (Steps 2) 2025); GetForecast (Steps 2);
        Print (PrevisaoPara (mkTs 2025 9 1) 120);
        Print (PrevisaoPara (mkTs 2025 10 1) 122);
        Print (EscrevendoPrevisoes "graficos");
        Print (ErroDivergencia 2 4);
        Print AjusteLinhasAlvo]).
Proof.
  apply (only_august_passes_the_count_check W
           (mkResults (λ _, inr (take 2 medias)))
           [(Some (mkTs 2025 10 1), Int 90)] (mkTs 2025 10 1)
           (take 2 medias) (inicio ∅)).
  - split.
    + apply list_elem_of_here.
    + intros u Hu. cbn in Hu. rewrite elem_of_cons, elem_of_nil in Hu.
      destruct Hu as [[= ->]|[]]. unfold ts_le; simpl; lia.
  - simpl. lia.
  - simpl. lia.
  - reflexivity.
  - reflexivity.
Defined.

(** ** Rounding *)

Lemma py_round_bounds x : Qfloor x ≤ py_round x ≤ Qfloor x + 1.
Proof.
  unfold py_round.
  destruct (x - inject_Z (Qfloor x) ?= 1 # 2)%Q; [|lia|lia].
  destruct (Z.even (Qfloor x)); lia.
Qed.

Lemma py_round_up x :
  (1 # 2 < x - inject_Z (Qfloor x))%Q → py_round x = Qfloor x + 1.
Proof.
  intros H. unfold py_round.
  destruct (Qcompare_spec (x - inject_Z (Qfloor x)) (1 # 2)) as [He|Hl|Hg];
    [|lra|done].
  rewrite He in H. lra.
Qed.

(** X11. [round] leaves an integer as it is, sends a value halfway between
    two integers to the even one, and keeps the order of the values it
    rounds. *)
Theorem py_round_integers_ties_order :
  (∀ n : Z, py_round (inject_Z n) = n) ∧
  (∀ x : Q, (x - inject_Z (Qfloor x) == 1 # 2)%Q →
            Z.even (py_round x) = true) ∧
  (∀ x y : Q, (x <= y)%Q → py_round x ≤ py_round y).
Proof.
  split; [|split].
  - intros n. unfold py_round. rewrite Qfloor_Z.
    destruct (Qcompare_spec (inject_Z n - inject_Z n) (1 # 2)) as [H|H|H];
      [lra | done | lra].
  - intros x Hx. unfold py_round.
    destruct (Qcompare_spec (x - inject_Z (Qfloor x)) (1 # 2)) as [H|H|H];
      [|lra|lra].
    destruct (Z.even (Qfloor x)) eqn:He; [done|].
    rewrite Z.even_add, He. done.
  - intros x y Hxy.
    pose proof (Qfloor_resp_le x y Hxy) as Hf.
    pose proof (py_round_bounds x) as Hbx.
    pose proof (py_round_bounds y) as Hby.
    destruct (decide (Qfloor x = Qfloor y)) as [Heq|Hne]; [|lia].
    destruct (decide (py_round x = Qfloor x)) as [Hx|Hx]; [lia|].
    assert (py_round x = Qfloor x + 1) as Hx1 by lia.
    enough (py_round y = Qfloor y + 1) by lia.
    clear Hbx Hby Hx. unfold py_round in Hx1 |- *. rewrite <- Heq.
    destruct (Qcompare_spec (x - inject_Z (Qfloor x)) (1 # 2)) as [H1|H1|H1];
      [|lia|].
    + destruct (Z.even (Qfloor x)) eqn:He; [lia|].
      destruct (Qcompare_spec (y - inject_Z (Qfloor x)) (1 # 2)) as [H2|H2|H2];
        [done | lra | done].
    + destruct (Qcompare_spec (y - inject_Z (Qfloor x)) (1 # 2)) as [H2|H2|H2];
        [lra | lra | done].
Qed.

Lemma py_round_integers_ties_order_witness :
  py_round (inject_Z 120) = 120 ∧
  Z.even (py_round (1205 # 10)) = true ∧
  py_round (1205 # 10) ≤ py_round (1215 # 10).
Proof.
  destruct py_round_integers_ties_order as (Hint & Htie & Hmono).
  split; [apply (Hint 120)|].
  split; [apply (Htie (1205 # 10)); reflexivity|].
  apply (Hmono (1205 # 10) (1215 # 10)). unfold Qle. simpl. lia.
Defined.

(** ** The write section, path by path *)

Section Emite.

Context {P : event → Prop}.











End Emite.



Section Paths.

Variable w : World.

Lemma escrever_never_exits ps (i : nat) wb st n st' :
  escrever w i ps wb st ≠ (SysExit n, st').
Proof.
  revert i wb st. induction ps as [|p ps IH]; intros i wb st; [done|].
  rewrite escrever_cons.
  destruct (linhas_alvo !! i) as [l|]; [|done].
  destruct (cell_error w l coluna_alvo); [done | apply IH].
Qed.

(** The write loop stopped by the first cell that cannot be assigned. *)
Lemma escrever_falha (k : nat) : ∀ ps (i : nat) wb st p l e,
  ps !! k = Some p →
  linhas_alvo !! (i + k)%nat = Some l →
  cell_error w l coluna_alvo = Some e →
  (∀ (j : nat) l', (j < k)%nat → linhas_alvo !! (i + j)%nat = Some l' →
                   cell_error w l' coluna_alvo = None) →
  escrever w i ps wb st =
    (Raised e,
     apos st (eventos_escrita (take k (drop i linhas_alvo)) ps ++
              [SetCell aba_alvo l coluna_alvo (p_previsao p)])).
Proof.
  induction k as [|k IH]; intros [|p0 ps] i wb st p l e Hp Hl He Hbefore;
    try done.
  - injection Hp as ->. rewrite Nat.add_0_r in Hl.
    by rewrite escrever_cons, Hl, He.
  - simpl in Hp. rewrite escrever_cons.
    destruct (linhas_alvo !! i) as [l0|] eqn:Hl0.
    2: { apply lookup_ge_None in Hl0. apply lookup_lt_Some in Hl. lia. }
    rewrite (Hbefore 0%nat l0) by (lia || by rewrite Nat.add_0_r).
    rewrite (IH ps (S i) _ _ p l e Hp); try done.
    + rewrite apos_apos, (drop_S _ _ _ Hl0). done.
    + by replace (S i + k)%nat with (i + S k)%nat by lia.
    + intros j l' Hj Hl'. apply (Hbefore (S j) l'); [lia|].
      by replace (i + S j)%nat with (S i + j)%nat by lia.
Qed.

End Paths.

Lemma gravar_outcome (w : World) (ps : list previsao) (st : State) :
  (gravar w ps st).1 =
    if decide (length ps = length linhas_alvo) then Done tt else SysExit 0.
Proof.
  case_decide as Hlen.
  - rewrite (gravar_unfold w ps st Hlen).
    destruct (load_error w (disk st)); [done|].
    destruct (escrever w 0 ps (com_aba (disk st))
                (apos st (Print (EscrevendoPrevisoes aba_alvo) :: LoadWorkbook
                          :: eventos_aba (disk st))))
      as [[wb'|n|e] st2] eqn:He.
    + by destruct (save_error w wb') as [[? ?]|].
    + exfalso. by eapply escrever_never_exits.
    + done.
  - unfold gravar. apply Nat.eqb_neq in Hlen. by rewrite Hlen.
Qed.

(** X12. Once the forecasts are as many as the target rows, nothing that
    goes wrong while writing gets out of the [try]: the script ends by
    running off its last line, neither through [sys.exit()] nor with an
    exception; with a different count it leaves through [sys.exit()]. *)
Theorem write_section_never_raises
    (w : World) (ps : list previsao) (st : State) :
  (gravar w ps st).1 =
    if decide (length ps = length linhas_alvo) then Done tt else SysExit 0.
Proof. apply gravar_outcome. Qed.

(** X13. The workbook cannot be loaded: no cell is touched, the file stays
    as it was, the two failure lines are printed and the script ends
    normally. *)
Theorem load_failure_leaves_the_file
    (w : World) (ps : list previsao) (st : State) (e : exn) :
  length ps = length linhas_alvo →
  load_error w (disk st) = Some e →
  gravar w ps st =
    (Done tt,
     apos st [Print (EscrevendoPrevisoes aba_alvo); LoadWorkbook;
              Print (ErroEscrever e); Print NaoForamSalvas]).
Proof. intros Hlen Hload. by rewrite (gravar_unfold w ps st Hlen), Hload. Qed.

Lemma load_failure_leaves_the_file_witness :
  gravar (mkWorld lower (λ s, s) (λ _ _, inr tabela) strptime dayfirst
            (λ _, inr resultados)
            (λ _, Some (LibraryError "PermissionError"))
            (λ _ _, None) (λ _, None))
    (arredondar <$> take 4 medias) (inicio ∅) =
    (Done tt,
     apos (inicio ∅)
       [Print (EscrevendoPrevisoes "graficos"); LoadWorkbook;
        Print (ErroEscrever (LibraryError "PermissionError"));
        Print NaoForamSalvas]).
Proof.
  apply (load_failure_leaves_the_file
           (mkWorld lower (λ s, s) (λ _ _, inr tabela) strptime dayfirst
              (λ _, inr resultados)
              (λ _, Some (LibraryError "PermissionError"))
              (λ _ _, None) (λ _, None))
           (arredondar <$> take 4 medias) (inicio ∅)).
  - reflexivity.
  - reflexivity.
Defined.

(** X14. The first target cell that refuses its value stops the loop: the
    cells before it were set in memory and announced as saved, the rest is
    not attempted, nothing is saved, the file stays as it was, and the
    script ends normally after the two failure lines. *)
Theorem first_failing_cell_aborts_the_write
    (w : World) (ps : list previsao) (st : State)
    (k : nat) (p : previsao) (l : Z) (e : exn) :
  length ps = length linhas_alvo →
  load_error w (disk st) = None →
  ps !! k = Some p → linhas_alvo !! k = Some l →
  cell_error w l coluna_alvo = Some e →
  (∀ (j : nat) l', (j < k)%nat → linhas_alvo !! j = Some l' →
                   cell_error w l' coluna_alvo = None) →
  gravar w ps st =
    (Done tt,
     apos st ([Print (EscrevendoPrevisoes aba_alvo); LoadWorkbook] ++
              eventos_aba (disk st) ++
              eventos_escrita (take k linhas_alvo) ps ++
              [SetCell aba_alvo l coluna_alvo (p_previsao p);
               Print (ErroEscrever e); Print NaoForamSalvas])).
Proof.
  intros Hlen Hload Hp Hl He Hbefore.
  rewrite (gravar_unfold w ps st Hlen), Hload.
  rewrite (escrever_falha w k ps 0 _ _ p l e Hp Hl He Hbefore).
  rewrite !apos_apos. change (drop 0 linhas_alvo) with linhas_alvo.
  by rewrite <- !app_assoc.
Qed.

Lemma first_failing_cell_aborts_the_write_witness :
  gravar (mundo (inr tabela) [13]) (arredondar <$> take 4 medias) (inicio ∅) =
    (Done tt,
     apos (inicio ∅)
       [Print (EscrevendoPrevisoes "graficos"); LoadWorkbook;
        Print (AvisoAbaCriada "graficos"); CreateSheet "graficos";
        SetCell "graficos" 11 6 120;
        Print (ValorSalvo 120 (mkTs 2025 9 1) 11);
        SetCell "graficos" 12 6 122;
        Print (ValorSalvo 122 (mkTs 2025 10 1) 12);
        SetCell "graficos" 13 6 130;
        Print (ErroEscrever (LibraryError "AttributeError: read-only"));
        Print NaoForamSalvas]).
Proof.
  etrans.
  { apply (first_failing_cell_aborts_the_write (mundo (inr tabela) [13])
             (arredondar <$> take 4 medias) (inicio ∅) 2
             (mkPrev (mkTs 2025 11 1) 130) 13
             (LibraryError "AttributeError: read-only")).
    - reflexivity.
    - reflexivity.
    - reflexivity.
    - reflexivity.
    - reflexivity.
    - intros j l' Hj Hl'.
      destruct j as [|[|j]]; [| |lia]; injection Hl' as <-; reflexivity. }
  reflexivity.
Defined.

(** X15. The save itself fails: what is on disk is whatever the failed save
    left there, not necessarily the file as it was, while the script
    reports that the forecasts were not saved and ends normally. *)
Theorem save_failure_leaves_what_the_save_left
    (w : World) (ps : list previsao) (st : State) (e : exn)
    (resto : workbook) :
  length ps = length linhas_alvo →
  load_error w (disk st) = None →
  (∀ linha, linha ∈ linhas_alvo → cell_error w linha coluna_alvo = None) →
  save_error w (planilha_escrita linhas_alvo ps (com_aba (disk st))) =
    Some (e, resto) →
  gravar w ps st =
    (Done tt,
     mkState
       (trace st ++
        [Print (EscrevendoPrevisoes aba_alvo); LoadWorkbook] ++
        eventos_aba (disk st) ++ eventos_escrita linhas_alvo ps ++
        [Save; Print (ErroEscrever e); Print NaoForamSalvas])
       resto).
Proof.
  intros Hlen Hload Hcell Hsave.
  rewrite (gravar_unfold w ps st Hlen), Hload.
  rewrite (escrever_ok w ps 0) by (done || (rewrite Hlen; simpl; lia)).
  change (drop 0 linhas_alvo) with linhas_alvo. rewrite Hsave.
  f_equal. f_equal. simpl. by rewrite <- !app_assoc.
Qed.

Lemma save_failure_leaves_what_the_save_left_witness :
  disk
    (gravar (mkWorld lower (λ s, s) (λ _ _, inr tabela) strptime dayfirst
               (λ _, inr resultados) (λ _, None) (λ _ _, None)
               (λ _, Some (LibraryError "OSError", {["graficos" := ∅]})))
       (arredondar <$> take 4 medias) (inicio ∅)).2 =
    {["graficos" := ∅]}.
Proof.
  rewrite (save_failure_leaves_what_the_save_left
             (mkWorld lower (λ s, s) (λ _ _, inr tabela) strptime dayfirst
                (λ _, inr resultados) (λ _, None) (λ _ _, None)
                (λ _, Some (LibraryError "OSError", {["graficos" := ∅]})))
             (arredondar <$> take 4 medias) (inicio ∅)
             (LibraryError "OSError") {["graficos" := ∅]}).
  - reflexivity.
  - reflexivity.
  - reflexivity.
  - intros linha _. reflexivity.
  - reflexivity.
Defined.

Section Events.

Variable w : World.

(** The events of the write loop, whatever happens in it. *)
Lemma emite_escrever (P : event → Prop) ps (i : nat) wb :
  (∀ l v, l ∈ linhas_alvo → P (SetCell aba_alvo l coluna_alvo v)) →
  (∀ v d l, P (Print (ValorSalvo v d l))) →
  emite P (escrever w i ps wb).
Proof.
  intros Hset Hprint. revert i wb.
  induction ps as [|p ps IH]; intros i wb st.
  - exists []. by rewrite app_nil_r.
  - rewrite escrever_cons.
    destruct (linhas_alvo !! i) as [l|] eqn:Hl.
    2: { exists []. by rewrite app_nil_r. }
    assert (l ∈ linhas_alvo) as Hin by (by eapply list_elem_of_lookup_2).
    destruct (cell_error w l coluna_alvo) as [e|].
    + eexists. split; [done|]. repeat constructor. by apply Hset.
    + destruct (IH (S i) (grava wb l (p_previsao p))
                  (apos st [SetCell aba_alvo l coluna_alvo (p_previsao p);
                            Print (ValorSalvo (p_previsao p) (p_data p) l)]))
        as (evs & Heq & HP).
      eexists. split; [rewrite Heq; simpl; by rewrite <- app_assoc|].
      repeat constructor; [by apply Hset | apply Hprint | done].
Qed.


End Events.

Lemma nao_sucesso_elem evs k f :
  Forall nao_sucesso evs → Print (Sucesso k f) ∉ evs.
Proof.
  intros H Hin. rewrite Forall_forall in H. by apply (H _ Hin).
Qed.

(** X16. The last line of the script tells the truth: the success line is
    printed exactly when the count matched, the workbook loaded, every
    target cell took its value and the save went through; and then the file
    on disk is the loaded workbook with all the forecasts written. *)
Theorem success_line_means_saved
    (w : World) (ps : list previsao) (st : State) :
  ∃ evs, trace (gravar w ps st).2 = trace st ++ evs ∧
    (Print (Sucesso (length ps) nome_arquivo) ∈ evs ↔
       length ps = length linhas_alvo ∧
       load_error w (disk st) = None ∧
       (∀ linha, linha ∈ linhas_alvo → cell_error w linha coluna_alvo = None) ∧
       save_error w (planilha_escrita linhas_alvo ps (com_aba (disk st))) =
         None) ∧
    (Print (Sucesso (length ps) nome_arquivo) ∈ evs →
       disk (gravar w ps st).2 =
         planilha_escrita linhas_alvo ps (com_aba (disk st))).
Proof.
  destruct (decide (length ps = length linhas_alvo)) as [Hlen|Hlen].
  2: { exists [Print (EscrevendoPrevisoes aba_alvo);
               Print (ErroDivergencia (length ps) (length linhas_alvo));
               Print AjusteLinhasAlvo].
       split.
       { unfold gravar. apply Nat.eqb_neq in Hlen. rewrite Hlen. simpl.
         by rewrite <- !app_assoc. }
       assert (Print (Sucesso (length ps) nome_arquivo) ∉
                 [Print (EscrevendoPrevisoes aba_alvo);
                  Print (ErroDivergencia (length ps) (length linhas_alvo));
                  Print AjusteLinhasAlvo]) as Hno.
       { apply nao_sucesso_elem. by repeat constructor. }
       split; [split; [done | by intros [? _]] | done]. }
  rewrite (gravar_unfold w ps st Hlen).
  destruct (load_error w (disk st)) as [e|] eqn:Hload.
  { eexists. split; [done|].
    assert (Print (Sucesso (length ps) nome_arquivo) ∉
              [Print (EscrevendoPrevisoes aba_alvo); LoadWorkbook;
               Print (ErroEscrever e); Print NaoForamSalvas]) as Hno.
    { apply nao_sucesso_elem. by repeat constructor. }
    split; [split; [done | by intros (_ & ? & _)] | done]. }
  set (st1 := apos st (Print (EscrevendoPrevisoes aba_alvo) :: LoadWorkbook
                       :: eventos_aba (disk st))).
  assert (Forall nao_sucesso (Print (EscrevendoPrevisoes aba_alvo)
                              :: LoadWorkbook :: eventos_aba (disk st))) as Hpre.
  { repeat constructor. unfold eventos_aba.
    destruct (disk st !! aba_alvo); by repeat constructor. }
  destruct (emite_escrever w nao_sucesso ps 0 (com_aba (disk st))
              ltac:(done) ltac:(done) st1) as (evs & Htr & Hns).
  destruct (escrever_shape w ps 0 (com_aba (disk st)) st1)
    as (evs' & _ & _ & Hdone).
  destruct (escrever w 0 ps (com_aba (disk st)) st1)
    as [[wb'|n|e] st2] eqn:Hesc; simpl in Htr, Hdone.
  - destruct (Hdone wb' eq_refl) as [_ Hcells].
    assert (∀ linha, linha ∈ linhas_alvo →
              cell_error w linha coluna_alvo = None) as Hall.
    { intros linha [j Hj]%list_elem_of_lookup. apply (Hcells j); [|done].
      apply lookup_lt_Some in Hj. lia. }
    rewrite (escrever_ok w ps 0) in Hesc
      by (done || (rewrite Hlen; simpl; lia)).
    change (drop 0 linhas_alvo) with linhas_alvo in Hesc.
    injection Hesc as <- _.
    destruct (save_error w _) as [[e resto]|] eqn:Hsave.
    + eexists. split; [simpl; rewrite Htr; simpl; by rewrite <- !app_assoc|].
      assert (Print (Sucesso (length ps) nome_arquivo) ∉
                (Print (EscrevendoPrevisoes aba_alvo) :: LoadWorkbook
                 :: eventos_aba (disk st)) ++ evs ++
                [Save; Print (ErroEscrever e); Print NaoForamSalvas]) as Hno.
      { apply nao_sucesso_elem. apply Forall_app. split; [done|].
        apply Forall_app. split; [done | by repeat constructor]. }
      split; [split; [done | by intros (_ & _ & _ & ?)] | done].
    + eexists. split; [simpl; rewrite Htr; simpl; by rewrite <- !app_assoc|].
      split; [|done]. split; [done|]. intros _.
      rewrite !elem_of_app. right. right.
      apply list_elem_of_further, list_elem_of_here.
  - exfalso. by eapply escrever_never_exits.
  - eexists. split; [simpl; rewrite Htr; simpl; by rewrite <- !app_assoc|].
    assert (Print (Sucesso (length ps) nome_arquivo) ∉
              (Print (EscrevendoPrevisoes aba_alvo) :: LoadWorkbook
               :: eventos_aba (disk st)) ++ evs ++
              [Print (ErroEscrever e); Print NaoForamSalvas]) as Hno.
    { apply nao_sucesso_elem. apply Forall_app. split; [done|].
      apply Forall_app. split; [done | by repeat constructor]. }
    split; [|done]. split; [done|]. intros (_ & _ & Hall & _).
    rewrite (escrever_ok w ps 0) in Hesc
      by (done || (rewrite Hlen; simpl; lia)).
    done.
Qed.

(** ** The script as a whole *)

Section Whole.

Variable w : World.









End Whole.


(** ** Writing twice *)

Lemma planilha_celulas_novas linhas ps wb :
  is_Some (wb !! aba_alvo) →
  planilha_escrita linhas ps wb =
    <[aba_alvo := celulas_novas linhas ps ∪ default ∅ (wb !! aba_alvo)]> wb.
Proof.
  revert ps wb. induction linhas as [|l linhas IH]; intros ps wb [f Hf].
  - simpl. destruct ps; rewrite Hf; simpl;
      by rewrite (left_id_L ∅ (∪)), insert_id.
  - destruct ps as [|p ps].
    + simpl. rewrite Hf. simpl. by rewrite (left_id_L ∅ (∪)), insert_id.
    + cbn [planilha_escrita celulas_novas].
      rewrite IH by (unfold grava; rewrite lookup_insert_eq; by eexists).
      unfold grava. rewrite lookup_insert_eq, insert_insert_eq, Hf. simpl.
      by rewrite (insert_union_singleton_l f), (assoc_L (∪)).
Qed.

Lemma planilha_escrita_idemp linhas ps wb :
  is_Some (wb !! aba_alvo) →
  planilha_escrita linhas ps (planilha_escrita linhas ps wb) =
    planilha_escrita linhas ps wb.
Proof.
  intros Hwb.
  rewrite (planilha_celulas_novas linhas ps wb Hwb).
  rewrite planilha_celulas_novas by (rewrite lookup_insert_eq; by eexists).
  rewrite lookup_insert_eq, insert_insert_eq. simpl.
  by rewrite (assoc_L (∪)), (idemp_L (∪)).
Qed.

Lemma com_aba_id wb : is_Some (wb !! aba_alvo) → com_aba wb = wb.
Proof. intros [f Hf]. unfold com_aba. by rewrite Hf. Qed.

(** X18. Running the write section again with the same forecasts, nothing
    failing, leaves the file exactly as the first run left it: the four
    cells are overwritten with the same values and no sheet is added. *)
Theorem writing_again_changes_nothing
    (w : World) (ps : list previsao) (st : State) :
  length ps = length linhas_alvo →
  (∀ wb, load_error w wb = None) →
  (∀ linha, linha ∈ linhas_alvo → cell_error w linha coluna_alvo = None) →
  (∀ wb, save_error w wb = None) →
  disk (gravar w ps (gravar w ps st).2).2 = disk (gravar w ps st).2 ∧
  CreateSheet aba_alvo ∉
    drop (length (trace (gravar w ps st).2))
         (trace (gravar w ps (gravar w ps st).2).2).
Proof.
  intros Hlen Hload Hcell Hsave.
  rewrite (gravar_ok w ps st Hlen (Hload _) Hcell (Hsave _)).
  cbn [snd].
  rewrite (gravar_ok w ps _ Hlen (Hload _) Hcell (Hsave _)).
  cbn [snd disk trace].
  assert (is_Some (planilha_escrita linhas_alvo ps (com_aba (disk st))
                     !! aba_alvo)) as Hsheet
    by apply aba_escrita, aba_com_aba.
  split.
  - rewrite (com_aba_id _ Hsheet).
    apply planilha_escrita_idemp, aba_com_aba.
  - rewrite drop_app_length.
    unfold eventos_aba at 1. destruct Hsheet as [f ->].
    assert (Forall (λ e, e ≠ CreateSheet aba_alvo)
              ([Print (EscrevendoPrevisoes aba_alvo); LoadWorkbook] ++
               [] ++ eventos_escrita linhas_alvo ps ++
               [Save; Print (Sucesso (length ps) nome_arquivo)])) as Hno.
    { repeat first [apply Forall_app; split | apply Forall_cons; split
                   | apply Forall_nil]; try done.
      clear Hlen. generalize linhas_alvo. intros linhas. revert ps.
      induction linhas as [|l linhas IH]; intros [|p ps]; simpl;
        try (by apply Forall_nil).
      repeat (apply Forall_cons; split; [done|]).
      by apply (IH ps). }
    intros Hin. rewrite Forall_forall in Hno. by apply (Hno _ Hin).
Qed.

Lemma writing_again_changes_nothing_witness :
  disk (gravar W (arredondar <$> take 4 medias)
          (gravar W (arredondar <$> take 4 medias) (inicio ∅)).2).2 =
  disk (gravar W (arredondar <$> take 4 medias) (inicio ∅)).2.
Proof.
  apply (writing_again_changes_nothing W (arredondar <$> take 4 medias)
           (inicio ∅)).
  - reflexivity.
  - intros wb. reflexivity.
  - intros linha _. reflexivity.
  - intros wb. reflexivity.
Defined.

(** ** From the sheet to the cells *)



